(** * A verified model of [app.py]: the dissociation service

    The Flask application of [app.py] is embedded function by function:
    the Python built-ins its handlers call ([str.strip], [str.lower],
    [str.replace], [str.split], [str.startswith], [int]), the connection
    provider [get_engine], the two SQL statements of the dissociation
    routes, and the handlers themselves, written in a state-and-exception
    monad over the process state (environment, the module global
    [_engine], the store behind the connection, and the trace of what was
    sent to it).

    Conventions.
    - A Python [str] is a [string]; a character is read as the code point
      of the same number, so the model covers the code points U+0000 to
      U+00FF.
    - A study identifier is an integer ([Z]); the identifier column is
      taken to be NOT NULL.
    - A weight and a geometry component are rationals ([Q]). *)

From Stdlib Require Import ZArith QArith Qround Ascii String List Sorted Permutation Lia.
From stdpp Require Import base decidable option numbers list sorting strings gmap.

Set Warnings "-register-all".

Local Open Scope string_scope.
Local Open Scope Z_scope.

(** ** Python built-ins on strings *)

Module Py.

Definition ord (c : ascii) : Z := Z.of_N (N_of_ascii c).

(** [str.isspace] on one character, as [str.strip] uses it:
    U+0009..U+000D, U+001C..U+0020, U+0085 and U+00A0. *)
Definition isspace (c : ascii) : bool :=
  let n := ord c in
  ((9 <=? n) && (n <=? 13)) || ((28 <=? n) && (n <=? 32))
  || (n =? 133) || (n =? 160).

(** The white space [int] skips around a literal: the information
    separators U+001C..U+001F are white space for [str.strip] but not
    for [int]. *)
Definition int_isspace (c : ascii) : bool :=
  let n := ord c in
  ((9 <=? n) && (n <=? 13)) || (n =? 32) || (n =? 133) || (n =? 160).

Definition isdigit (c : ascii) : bool :=
  let n := ord c in (48 <=? n) && (n <=? 57).

(** [str.lower] on one character: A..Z, and U+00C0..U+00DE except the
    multiplication sign U+00D7, move up by 32. *)
Definition lower_char (c : ascii) : ascii :=
  let n := ord c in
  if ((65 <=? n) && (n <=? 90))
     || ((192 <=? n) && (n <=? 222) && negb (n =? 215))
  then ascii_of_N (N_of_ascii c + 32) else c.

Fixpoint lower (s : string) : string :=
  match s with
  | EmptyString => EmptyString
  | String c r => String (lower_char c) (lower r)
  end.

(** [s.replace(old, new)] for one-character [old] and [new]. *)
Fixpoint replace (old new : ascii) (s : string) : string :=
  match s with
  | EmptyString => EmptyString
  | String c r => String (if Ascii.eqb c old then new else c) (replace old new r)
  end.

Fixpoint lstrip_by (sp : ascii -> bool) (s : string) : string :=
  match s with
  | EmptyString => EmptyString
  | String c r => if sp c then lstrip_by sp r else s
  end.

Fixpoint rstrip_by (sp : ascii -> bool) (s : string) : string :=
  match s with
  | EmptyString => EmptyString
  | String c r =>
      match rstrip_by sp r with
      | EmptyString => if sp c then EmptyString else String c EmptyString
      | r' => String c r'
      end
  end.

(** [s.strip()]: the slice between the first and the last character
    that is not white space. *)
Definition strip (s : string) : string := rstrip_by isspace (lstrip_by isspace s).

(** [s.split(sep)] for a one-character separator: never the empty list,
    and empty tokens are kept. *)
Fixpoint split (sep : ascii) (s : string) : list string :=
  match s with
  | EmptyString => [EmptyString]
  | String c r =>
      if Ascii.eqb c sep then EmptyString :: split sep r
      else match split sep r with
           | t :: ts => String c t :: ts
           | [] => [String c EmptyString]
           end
  end.

(** [s.startswith(p)] *)
Fixpoint startswith (s p : string) {struct p} : bool :=
  match p with
  | EmptyString => true
  | String c p' =>
      match s with
      | EmptyString => false
      | String d s' => Ascii.eqb d c && startswith s' p'
      end
  end.

(** [s[n:]] *)
Fixpoint slice_from (n : nat) (s : string) : string :=
  match n, s with
  | O, _ => s
  | S n', String _ r => slice_from n' r
  | S _, EmptyString => EmptyString
  end.

(** *** [int(s)] in base 10 *)

(** What the digit scanner saw last. *)
Inductive seen := Nothing | Digit | Underscore.

(** [sys.get_int_max_str_digits()], at its default. *)
Definition int_max_str_digits : Z := 4300.

(** The digits of a literal: at least one digit, single underscores
    allowed between two digits only; [count] is the number of digit
    characters read so far, [acc] their value. *)
Fixpoint int_digits (s : string) (prev : seen) (count acc : Z) : option Z :=
  match s with
  | EmptyString =>
      match prev with
      | Digit => if int_max_str_digits <? count then None else Some acc
      | _ => None
      end
  | String c r =>
      if isdigit c then int_digits r Digit (count + 1) (10 * acc + (ord c - 48))
      else if Ascii.eqb c "_"%char then
        match prev with
        | Digit => int_digits r Underscore count acc
        | _ => None
        end
      else None
  end.

(** [int(s)]: [None] stands for the [ValueError] it raises. *)
Definition int (s : string) : option Z :=
  match rstrip_by int_isspace (lstrip_by int_isspace s) with
  | EmptyString => None
  | String c r as t =>
      if Ascii.eqb c "+"%char then int_digits r Nothing 0 0
      else if Ascii.eqb c "-"%char then Z.opp <$> int_digits r Nothing 0 0
      else int_digits t Nothing 0 0
  end.

End Py.

(** ** Values, exceptions and responses *)

(** What [jsonify] serialises. A Python [dict] is a finite map. *)
Inductive json :=
| JNull
| JBool (b : bool)
| JInt (z : Z)
| JNum (q : Q)
| JStr (s : string)
| JList (l : list json)
| JDict (d : gmap string json).

Inductive value_error :=
| InvalidLiteral (token : string)
| NotEnoughValues (expected got : nat)
| TooManyValues (expected : nat).

Inductive exn :=
| RuntimeError (msg : string)
| ValueError (why : value_error)
| DBAPIError (msg : string)
| HTTPException (code : Z) (description : string)
| ArgumentError (msg : string)
| NoSuchModuleError (msg : string)
| ModuleNotFoundError (msg : string).

(** Why [create_engine] refuses a URL: it cannot parse the string, or
    the dialect it names is unknown, or the driver of the dialect is not
    installed. *)
Inductive refusal :=
| Unparsable (msg : string)
| UnknownDialect (msg : string)
| MissingDriver (msg : string).

Definition refusal_exn (why : refusal) : exn :=
  match why with
  | Unparsable msg => ArgumentError msg
  | UnknownDialect msg => NoSuchModuleError msg
  | MissingDriver msg => ModuleNotFoundError msg
  end.

Inductive body :=
| Json (j : json)
| ErrorPage (description : string).

Record response := Response { status : Z; content : body }.

(** ** The store behind the connection *)

Record annotation := Annotation {
  an_study_id : Z;
  an_contrast_id : json;
  an_term : string;
  an_weight : Q
}.

Record coordinate := Coordinate {
  co_study_id : Z;
  co_x : Q;
  co_y : Q;
  co_z : Q
}.

(** The statements the application sends. *)
Inductive statement :=
| SetSearchPath
| SelectVersion
| CountCoordinates
| CountMetadata
| CountAnnotationsTerms
| SampleCoordinates
| SampleMetadata
| SampleAnnotationsTerms
| DissociateTerms (a b : string)
| DissociateLocations (x1 y1 z1 x2 y2 z2 : Z).

(** The store is a black box: its three tables, its [round] on a
    geometry component (the tie-breaking rule is the platform's), and
    which of its answers are errors. With it comes the client library,
    as far as the application meets it: which connection URLs
    [create_engine] refuses. *)
Record store := Store {
  annotations_terms : list annotation;
  coordinates : list coordinate;
  metadata : list (gmap string json);
  version : string;
  round : Q -> Z;
  connect_error : option string;
  statement_error : statement -> option string;
  commit_error : option string;
  url_refusal : string -> option refusal
}.

Record engine := Engine { url : string; pool_pre_ping : bool }.

Inductive event :=
| EvBegin
| EvExecute (s : statement)
| EvCommit
| EvRollback.

(** The process: the environment variable, the module global, the store
    and what has been sent to it so far (latest first). *)
Record world := World {
  DB_URL : option string;
  _engine : option engine;
  db : store;
  trace : list event
}.

Definition log (e : event) (w : world) : world :=
  World (DB_URL w) (_engine w) (db w) (e :: trace w).

Definition set_engine (e : engine) (w : world) : world :=
  World (DB_URL w) (Some e) (db w) (trace w).

(** ** Computations that read and write a state and may raise *)

Inductive result (A : Type) :=
| Ok (a : A)
| Raise (e : exn).
Arguments Ok {A} a.
Arguments Raise {A} e.

Definition ST (S A : Type) : Type := S -> result A * S.

(** A view works on the process alone. *)
Abbreviation M := (ST world).

Definition ret {S A} (a : A) : ST S A := fun s => (Ok a, s).

Definition raise {S A} (e : exn) : ST S A := fun s => (Raise e, s).

Definition bind {S A B} (m : ST S A) (k : A -> ST S B) : ST S B :=
  fun s =>
    match m s with
    | (Ok a, s') => k a s'
    | (Raise e, s') => (Raise e, s')
    end.

Notation "'let*' x ':=' m 'in' k" := (bind m (fun x => k))
  (at level 10, x pattern, m at level 100, k at level 200).

(** [try: m except Exception as e: h e] *)
Definition try_except {S A} (m : ST S A) (h : exn -> ST S A) : ST S A :=
  fun s =>
    match m s with
    | (Ok a, s') => (Ok a, s')
    | (Raise e, s') => h e s'
    end.

Definition pure_result {S A} (r : result A) : ST S A := fun s => (r, s).

(** A view with a local object it mutates in place ([payload] in
    [test_db]) works on the pair of that object and the process. *)
Definition lift {L A} (m : M A) : ST (L * world) A :=
  fun s => let (r, w') := m s.2 in (r, (s.1, w')).

Definition with_local {L A} (init : L) (m : ST (L * world) A) : M A :=
  fun w => let (r, s') := m (init, w) in (r, s'.2).

Definition get_local {L} : ST (L * world) L := fun s => (Ok s.1, s).

(** [payload[k] = v] *)
Definition setitem (k : string) (v : json) : ST (gmap string json * world) unit :=
  fun s => (Ok tt, (<[k := v]> s.1, s.2)).

(** What Flask answers for a view: its response, the error page of an
    [HTTPException], or its generic 500 page for any other exception. *)
Definition internal_server_error : response :=
  Response 500 (ErrorPage "Internal Server Error").

Definition serve (view : M response) (w : world) : response * world :=
  match view w with
  | (Ok r, w') => (r, w')
  | (Raise (HTTPException code description), w') =>
      (Response code (ErrorPage description), w')
  | (Raise _, w') => (internal_server_error, w')
  end.

(** [abort(code, description=...)] *)
Definition abort {S A} (code : Z) (description : string) : ST S A :=
  raise (HTTPException code description).

(** [jsonify(v)] and [jsonify(v), code] *)
Definition jsonify (v : json) : response := Response 200 (Json v).

Definition jsonify_status (v : json) (code : Z) : response := Response code (Json v).

(** A [dict] display, entries in source order. *)
Definition dict (entries : list (string * json)) : gmap string json :=
  list_to_map entries.

(** [str(e)] *)
Definition str (e : exn) : string :=
  match e with
  | RuntimeError msg => msg
  | DBAPIError msg => msg
  | HTTPException _ description => description
  | ValueError (InvalidLiteral _) => "invalid literal for int() with base 10"
  | ValueError (NotEnoughValues _ _) => "not enough values to unpack"
  | ValueError (TooManyValues _) => "too many values to unpack"
  | ArgumentError msg => msg
  | NoSuchModuleError msg => msg
  | ModuleNotFoundError msg => msg
  end.

(** ** The connection provider *)

Definition missing_db_url : string :=
  "Missing DB_URL (or DATABASE_URL) environment variable.".

(** [os.getenv("DB_URL")] *)
Definition getenv_DB_URL : M (option string) := fun w => (Ok (DB_URL w), w).

(** [create_engine(db_url, pool_pre_ping=True)]: lazy, it opens no
    connection, but it raises on a URL it refuses ([ArgumentError],
    [NoSuchModuleError], [ModuleNotFoundError]); which URLs those are is
    the library's to say. *)
Definition create_engine (db_url : string) (pre_ping : bool) : M engine :=
  fun w =>
    match url_refusal (db w) db_url with
    | Some why => (Raise (refusal_exn why), w)
    | None => (Ok (Engine db_url pre_ping), w)
    end.

(** Lines 18-19: the legacy scheme is replaced by the canonical one. *)
Definition normalize_scheme (db_url : string) : string :=
  if Py.startswith db_url "postgres://"
  then "postgresql://" ++ Py.slice_from (String.length "postgres://") db_url
  else db_url.

Definition read_engine : M (option engine) := fun w => (Ok (_engine w), w).

Definition write_engine (e : engine) : M unit := fun w => (Ok tt, set_engine e w).

Definition get_engine : M engine :=
  let* cached := read_engine in
  match cached with
  | Some e => ret e
  | None =>
      let* db_url := getenv_DB_URL in
      match db_url with
      | None | Some EmptyString => raise (RuntimeError missing_db_url)
      | Some db_url =>
          let db_url := normalize_scheme db_url in
          let* e := create_engine db_url true in
          let* _ := write_engine e in
          ret e
      end
  end.

(** [eng.dialect.name]: the backend name of the URL, what precedes the
    first [+] or [:]. *)
Fixpoint backend_name (u : string) : string :=
  match u with
  | EmptyString => EmptyString
  | String c r =>
      if Ascii.eqb c "+"%char || Ascii.eqb c ":"%char then EmptyString
      else String c (backend_name r)
  end.

Definition dialect_name (e : engine) : string := backend_name (url e).

(** ** Transactions and statements *)

(** Check a connection out and open a transaction. *)
Definition tx_begin : M unit :=
  fun w =>
    match connect_error (db w) with
    | Some msg => (Raise (DBAPIError msg), log EvBegin w)
    | None => (Ok tt, log EvBegin w)
    end.

Definition tx_commit : M unit :=
  fun w =>
    match commit_error (db w) with
    | Some msg => (Raise (DBAPIError msg), log EvCommit w)
    | None => (Ok tt, log EvCommit w)
    end.

Definition tx_rollback : M unit := fun w => (Ok tt, log EvRollback w).

(** [with eng.begin() as conn: body]: commit when the body ends,
    roll back and re-raise when it raises. [up] says how a step on the
    process runs in the state of the body. *)
Definition begin_with {S A} (up : forall B, M B -> ST S B)
    (eng : engine) (body : ST S A) : ST S A :=
  let* _ := up _ tx_begin in
  let* r := try_except body (fun e => let* _ := up _ tx_rollback in raise e) in
  let* _ := up _ tx_commit in
  ret r.

Definition begin {A} (eng : engine) (body : M A) : M A :=
  begin_with (fun _ m => m) eng body.

(** [conn.execute(text(...))]: the statement goes to the store, which
    answers with an error or with the rows [answer] computes from its
    tables. *)
Definition execute {A} (s : statement) (answer : store -> A) : M A :=
  fun w =>
    match statement_error (db w) s with
    | Some msg => (Raise (DBAPIError msg), log (EvExecute s) w)
    | None => (Ok (answer (db w)), log (EvExecute s) w)
    end.

(** ** The dissociation statement *)

#[local] Instance Qlt_decision (x y : Q) : Decision (x < y)%Q.
Proof.
  destruct (Qlt_le_dec x y) as [H | H]; [left; exact H | right].
  apply Qle_not_lt, H.
Defined.

(** The literal in the first column of the result. *)
Inductive tag := A_not_B | B_not_A.

Definition label (t : tag) : string :=
  match t with
  | A_not_B => "a_not_b"
  | B_not_A => "b_not_a"
  end.

(** A row of the result; [r["kind"]] is [label (kind r)]. *)
Record row := Row { kind : tag; study_id : Z }.

(** [ORDER BY 1, 2] *)
Definition row_leb (r1 r2 : row) : bool :=
  match String.compare (label (kind r1)) (label (kind r2)) with
  | Lt => true
  | Eq => study_id r1 <=? study_id r2
  | Gt => false
  end.

Definition row_le (r1 r2 : row) : Prop := row_leb r1 r2 = true.

#[local] Instance row_le_decision (r1 r2 : row) : Decision (row_le r1 r2).
Proof. unfold row_le. apply _. Defined.

Definition order_by_1_2 (rows : list row) : list row := merge_sort row_le rows.

(** [SELECT DISTINCT study_id FROM ... WHERE ...], given the
    identifiers of the rows the [WHERE] keeps. *)
Definition select_distinct (ids : list Z) : list Z := remove_dups ids.

(** The part the two statements share: from the two base sets [a] and
    [b], the two anti-joins, tagged, concatenated and ordered. *)
Definition dissociation (a b : list Z) : list row :=
  let a_not_b := filter (fun s => s ∉ b) a in
  let b_not_a := filter (fun s => s ∉ a) b in
  order_by_1_2 ((Row A_not_B <$> a_not_b) ++ (Row B_not_A <$> b_not_a)).

(** [WHERE term = :a AND weight > 0] *)
Definition term_set (st : store) (key : string) : list Z :=
  select_distinct
    (an_study_id <$>
       filter (fun r => an_term r = key /\ (0 < an_weight r)%Q) (annotations_terms st)).

(** [WHERE round(ST_X(geom)) = :x AND round(ST_Y(geom)) = :y
    AND round(ST_Z(geom)) = :z] *)
Definition location_set (st : store) (x y z : Z) : list Z :=
  select_distinct
    (co_study_id <$>
       filter (fun c => round st (co_x c) = x /\ round st (co_y c) = y
                        /\ round st (co_z c) = z)
              (coordinates st)).

Definition sql_dissociate_terms (a b : string) (st : store) : list row :=
  dissociation (term_set st a) (term_set st b).

Definition sql_dissociate_locations (x1 y1 z1 x2 y2 z2 : Z) (st : store) : list row :=
  dissociation (location_set st x1 y1 z1) (location_set st x2 y2 z2).

(** ** The views *)

(** [[r["study_id"] for r in rows if r["kind"] == k]] *)
Definition study_ids_of_kind (k : string) (rows : list row) : list Z :=
  study_id <$> filter (fun r => label (kind r) = k) rows.

Definition json_ids (ids : list Z) : json := JList (JInt <$> ids).

Definition counts (a_nb b_na : list Z) : json :=
  JDict (dict [("a_not_b", JInt (Z.of_nat (length a_nb)));
               ("b_not_a", JInt (Z.of_nat (length b_na)))]).

(** Lines 55 and 56, the same expression for both terms:
    [f"terms_abstract_tfidf__{term.strip().lower().replace(' ', '_')}"]. *)
Definition canonical_key (term : string) : string :=
  "terms_abstract_tfidf__" ++ Py.replace " " "_" (Py.lower (Py.strip term)).

Definition dissociate_terms (term_a term_b : string) : M response :=
  let a := canonical_key term_a in
  let b := canonical_key term_b in
  let* eng := get_engine in
  let* rows :=
    begin eng
      (let* _ := execute SetSearchPath (fun _ => tt) in
       execute (DissociateTerms a b) (sql_dissociate_terms a b)) in
  let a_nb := study_ids_of_kind "a_not_b" rows in
  let b_na := study_ids_of_kind "b_not_a" rows in
  ret (jsonify (JDict (dict [
    ("a", JStr a);
    ("b", JStr b);
    ("a_not_b", json_ids a_nb);
    ("b_not_a", json_ids b_na);
    ("counts", counts a_nb b_na)]))).

(** [[int(p) for p in tokens]]: all tokens are converted, in order. *)
Fixpoint ints (tokens : list string) : result (list Z) :=
  match tokens with
  | [] => Ok []
  | p :: ps =>
      match Py.int p with
      | None => Raise (ValueError (InvalidLiteral p))
      | Some n =>
          match ints ps with
          | Ok ns => Ok (n :: ns)
          | Raise e => Raise e
          end
      end
  end.

(** [x, y, z = values] for a list *)
Definition unpack3 (values : list Z) : result (Z * Z * Z) :=
  match values with
  | [x; y; z] => Ok (x, y, z)
  | _ =>
      if (length values <? 3)%nat
      then Raise (ValueError (NotEnoughValues 3 (length values)))
      else Raise (ValueError (TooManyValues 3))
  end.

Definition coords_message : string := "Coordinates must be 'x_y_z' with integers.".

Definition parse_coords {S} (s : string) : ST S (Z * Z * Z) :=
  try_except
    (let* values := pure_result (ints (Py.split "_" s)) in
     pure_result (unpack3 values))
    (fun _ => abort 400 coords_message).

Definition xyz (x y z : Z) : json :=
  JDict (dict [("x", JInt x); ("y", JInt y); ("z", JInt z)]).

Definition dissociate_locations (coord1 coord2 : string) : M response :=
  let* c1 := parse_coords coord1 in
  let '(x1, y1, z1) := c1 in
  let* c2 := parse_coords coord2 in
  let '(x2, y2, z2) := c2 in
  let* eng := get_engine in
  let* rows :=
    begin eng
      (let* _ := execute SetSearchPath (fun _ => tt) in
       execute (DissociateLocations x1 y1 z1 x2 y2 z2)
               (sql_dissociate_locations x1 y1 z1 x2 y2 z2)) in
  let a_nb := study_ids_of_kind "a_not_b" rows in
  let b_na := study_ids_of_kind "b_not_a" rows in
  ret (jsonify (JDict (dict [
    ("a", xyz x1 y1 z1);
    ("b", xyz x2 y2 z2);
    ("a_not_b", json_ids a_nb);
    ("b_not_a", json_ids b_na);
    ("counts", counts a_nb b_na)]))).

(** [next(it)] on [map(int, tokens)]: [None] when the tokens are
    exhausted, otherwise the next token converted and the rest. *)
Definition next_int (tokens : list string) : result (option (Z * list string)) :=
  match tokens with
  | [] => Ok None
  | p :: ps =>
      match Py.int p with
      | None => Raise (ValueError (InvalidLiteral p))
      | Some n => Ok (Some (n, ps))
      end
  end.

Definition and_then {A B} (r : result A) (k : A -> result B) : result B :=
  match r with
  | Ok a => k a
  | Raise e => Raise e
  end.

(** [x, y, z = map(int, tokens)]: the iterator is pulled three times,
    then once more to see that it is exhausted, so a fourth token is
    converted before it is counted as one too many. *)
Definition unpack3_map_int (tokens : list string) : result (Z * Z * Z) :=
  and_then (next_int tokens) (fun n1 =>
  match n1 with
  | None => Raise (ValueError (NotEnoughValues 3 0))
  | Some (x, tokens) =>
  and_then (next_int tokens) (fun n2 =>
  match n2 with
  | None => Raise (ValueError (NotEnoughValues 3 1))
  | Some (y, tokens) =>
  and_then (next_int tokens) (fun n3 =>
  match n3 with
  | None => Raise (ValueError (NotEnoughValues 3 2))
  | Some (z, tokens) =>
  and_then (next_int tokens) (fun n4 =>
  match n4 with
  | None => Ok (x, y, z)
  | Some _ => Raise (ValueError (TooManyValues 3))
  end)
  end)
  end)
  end).

(** What the [try] block of [parse_coords] computes. *)
Definition parsed (s : string) : result (Z * Z * Z) :=
  and_then (ints (Py.split "_" s)) unpack3.

Definition get_studies_by_coordinates (coords : string) : M response :=
  let* c := pure_result (unpack3_map_int (Py.split "_" coords)) in
  let '(x, y, z) := c in
  ret (jsonify (JList [JInt x; JInt y; JInt z])).

(** *** The diagnostic view *)

(** [dict(r)] for a row of each sample. *)
Definition coordinate_row (c : coordinate) : gmap string json :=
  dict [("study_id", JInt (co_study_id c)); ("x", JNum (co_x c));
        ("y", JNum (co_y c)); ("z", JNum (co_z c))].

Definition annotation_row (r : annotation) : gmap string json :=
  dict [("study_id", JInt (an_study_id r)); ("contrast_id", an_contrast_id r);
        ("term", JStr (an_term r)); ("weight", JNum (an_weight r))].

(** What the store answers to the statements of [test_db]. *)
Definition sql_count_coordinates (st : store) : Z := Z.of_nat (length (coordinates st)).
Definition sql_count_metadata (st : store) : Z := Z.of_nat (length (metadata st)).
Definition sql_count_annotations_terms (st : store) : Z :=
  Z.of_nat (length (annotations_terms st)).
Definition sql_sample_coordinates (st : store) : list (gmap string json) :=
  coordinate_row <$> take 3 (coordinates st).
Definition sql_sample_metadata (st : store) : list (gmap string json) :=
  take 3 (metadata st).
Definition sql_sample_annotations_terms (st : store) : list (gmap string json) :=
  annotation_row <$> take 3 (annotations_terms st).

(** Each of the three sample blocks (lines 184-190, 192-197, 199-205):
    [try: rows = ...; payload[key] = [dict(r) for r in rows]]
    [except Exception: payload[key] = []]. *)
Definition sample (key : string) (s : statement)
    (answer : store -> list (gmap string json)) : ST (gmap string json * world) unit :=
  try_except
    (let* rows := lift (execute s answer) in
     setitem key (JList (JDict <$> rows)))
    (fun _ => setitem key (JList [])).

Definition test_db : M response :=
  let* eng := get_engine in
  with_local (dict [("ok", JBool false); ("dialect", JStr (dialect_name eng))])
    (try_except
       (let* _ :=
          begin_with (@lift _) eng
            (let* _ := lift (execute SetSearchPath (fun _ => tt)) in
             let* v := lift (execute SelectVersion version) in
             let* _ := setitem "version" (JStr v) in
             let* n := lift (execute CountCoordinates sql_count_coordinates) in
             let* _ := setitem "coordinates_count" (JInt n) in
             let* n := lift (execute CountMetadata sql_count_metadata) in
             let* _ := setitem "metadata_count" (JInt n) in
             let* n := lift (execute CountAnnotationsTerms sql_count_annotations_terms) in
             let* _ := setitem "annotations_terms_count" (JInt n) in
             let* _ := sample "coordinates_sample" SampleCoordinates
                         sql_sample_coordinates in
             let* _ := sample "metadata_sample" SampleMetadata
                         sql_sample_metadata in
             sample "annotations_terms_sample" SampleAnnotationsTerms
               sql_sample_annotations_terms) in
        let* _ := setitem "ok" (JBool true) in
        let* payload := get_local in
        ret (jsonify_status (JDict payload) 200))
       (fun e =>
        let* _ := setitem "error" (JStr (str e)) in
        let* payload := get_local in
        ret (jsonify_status (JDict payload) 500))).

(** ** A small database *)

(** Study 101 has only the first term (twice), 202 only the second, 303
    both, and 404 the first with weight zero. *)
Definition example_store : store :=
  Store
    [Annotation 101 (JInt 1) "terms_abstract_tfidf__amygdala" (3 # 10);
     Annotation 202 (JInt 1) "terms_abstract_tfidf__hippocampus" (2 # 10);
     Annotation 303 (JInt 1) "terms_abstract_tfidf__amygdala" (1 # 10);
     Annotation 101 (JInt 2) "terms_abstract_tfidf__amygdala" (1 # 10);
     Annotation 303 (JInt 1) "terms_abstract_tfidf__hippocampus" (4 # 10);
     Annotation 404 (JInt 1) "terms_abstract_tfidf__amygdala" 0]
    [Coordinate 101 (10 # 1) (20 # 1) (30 # 1);
     Coordinate 202 (-19 # 10) (1 # 10) (41 # 10);
     Coordinate 303 (101 # 10) (199 # 10) (30 # 1);
     Coordinate 303 (-2 # 1) 0 (4 # 1)]
    []
    "PostgreSQL 15.4"
    (fun q => Qfloor (q + (1 # 2)))
    None (fun _ => None) None (fun _ => None).

Definition example_world : world :=
  World (Some "postgres://reader@localhost/neurosynth") None example_store [].

(** The same store, and no configuration. *)
Definition unconfigured_world : world := World None None example_store [].

(** ** The vocabulary of the properties *)

Module Spec.

(** The fixed namespace prefix of a term key. *)
Definition namespace_prefix : string := "terms_abstract_tfidf".

Fixpoint all_chars (p : ascii -> bool) (s : string) : bool :=
  match s with
  | EmptyString => true
  | String c r => p c && all_chars p r
  end.

Fixpoint map_chars (f : ascii -> ascii) (s : string) : string :=
  match s with
  | EmptyString => EmptyString
  | String c r => String (f c) (map_chars f r)
  end.

Definition whitespace (s : string) : Prop := all_chars Py.isspace s = true.

(** [u] neither begins nor ends with white space. *)
Definition begins_clean (u : string) : Prop :=
  forall c r, u = String c r -> Py.isspace c = false.

Definition ends_clean (u : string) : Prop :=
  forall p c, u = p ++ String c EmptyString -> Py.isspace c = false.

(** [u] is [t] trimmed of surrounding white space. *)
Definition trimmed (t u : string) : Prop :=
  exists l r, t = l ++ u ++ r /\ whitespace l /\ whitespace r
              /\ begins_clean u /\ ends_clean u.

Definition lowercased (u : string) : string := map_chars Py.lower_char u.

Definition space_to_underscore (u : string) : string :=
  map_chars (fun c => if Ascii.eqb c " " then "_"%char else c) u.

(** A coordinate string that splits on the underscore into exactly
    three tokens, each accepted by [int]. *)
Definition three_integers (s : string) (x y z : Z) : Prop :=
  exists t1 t2 t3,
    Py.split "_" s = [t1; t2; t3]
    /\ Py.int t1 = Some x /\ Py.int t2 = Some y /\ Py.int t3 = Some z.

Definition well_formed (s : string) : Prop := exists x y z, three_integers s x y z.

(** The provider returns an engine: one is cached, or the variable is
    set to a non-empty value that, normalised, [create_engine] does not
    refuse. *)
Definition configured (w : world) : Prop :=
  is_Some (_engine w)
  \/ exists c r, DB_URL w = Some (String c r)
                 /\ url_refusal (db w) (normalize_scheme (String c r)) = None.

(** The store answers every request without error. *)
Definition store_up (st : store) : Prop :=
  connect_error st = None /\ commit_error st = None
  /\ forall s, statement_error st s = None.

Definition serving (w : world) : Prop := configured w /\ store_up (db w).

(** The base sets of a dissociation. *)
Definition has_term (st : store) (key : string) (s : Z) : Prop :=
  exists r, r ∈ annotations_terms st /\ an_study_id r = s
            /\ an_term r = key /\ (0 < an_weight r)%Q.

Definition has_location (st : store) (x y z : Z) (s : Z) : Prop :=
  exists c, c ∈ coordinates st /\ co_study_id c = s
            /\ round st (co_x c) = x /\ round st (co_y c) = y
            /\ round st (co_z c) = z.

(** A field of a JSON object response. *)
Definition field (k : string) (r : response) : option json :=
  match content r with
  | Json (JDict d) => d !! k
  | _ => None
  end.

(** [counts[k]] of a dissociation response. *)
Definition count_field (k : string) (r : response) : option json :=
  match field "counts" r with
  | Some (JDict d) => d !! k
  | _ => None
  end.

(** The two lists are the two differences of the base sets [A] and [B],
    each without duplicates, and with the intersection they partition
    the union: the three blocks are pairwise disjoint and cover it. *)
Definition partitions (A B : Z -> Prop) (a_nb b_na : list Z) : Prop :=
  NoDup a_nb /\ NoDup b_na
  /\ (forall s, s ∈ a_nb <-> A s /\ ~ B s)
  /\ (forall s, s ∈ b_na <-> B s /\ ~ A s)
  /\ (forall s, ~ (s ∈ a_nb /\ s ∈ b_na))
  /\ (forall s, ~ (s ∈ a_nb /\ (A s /\ B s)))
  /\ (forall s, ~ (s ∈ b_na /\ (A s /\ B s)))
  /\ (forall s, A s \/ B s <-> s ∈ a_nb \/ (A s /\ B s) \/ s ∈ b_na).

(** The first error of the connection or of the transaction of
    [test_db], samples apart: checkout, the five statements outside the
    guarded blocks, commit. *)
Definition first_error (errors : list (option string)) : option string :=
  List.fold_right (fun e rest => match e with Some m => Some m | None => rest end)
                  None errors.

Definition top_level_error (st : store) : option string :=
  first_error [connect_error st;
               statement_error st SetSearchPath;
               statement_error st SelectVersion;
               statement_error st CountCoordinates;
               statement_error st CountMetadata;
               statement_error st CountAnnotationsTerms;
               commit_error st].

(** What a guarded sample leaves in the payload. *)
Definition sample_value (st : store) (s : statement)
    (answer : store -> list (gmap string json)) : json :=
  match statement_error st s with
  | None => JList (JDict <$> answer st)
  | Some _ => JList []
  end.

(** What the diagnostic view answers, given the store: 500 with the
    flag false and the message of the top-level error attached, or 200
    with the flag true, no error, and each sample either the rows or,
    when its own statement failed, the empty list. *)
Definition diagnostic_outcome (st : store) (r : response) : Prop :=
  match top_level_error st with
  | Some msg =>
      status r = 500
      /\ field "ok" r = Some (JBool false)
      /\ field "error" r = Some (JStr msg)
  | None =>
      status r = 200
      /\ field "ok" r = Some (JBool true)
      /\ field "error" r = None
      /\ field "coordinates_sample" r
         = Some (sample_value st SampleCoordinates sql_sample_coordinates)
      /\ field "metadata_sample" r
         = Some (sample_value st SampleMetadata sql_sample_metadata)
      /\ field "annotations_terms_sample" r
         = Some (sample_value st SampleAnnotationsTerms sql_sample_annotations_terms)
  end.

(** The two lists of a dissociation response come, tag by tag, from
    one ordered result set, are ascending, and are counted. *)
Definition sorted_and_counted (rows : list row) (r : response) : Prop :=
  let a_nb := study_ids_of_kind "a_not_b" rows in
  let b_na := study_ids_of_kind "b_not_a" rows in
  StronglySorted row_le rows
  /\ status r = 200
  /\ field "a_not_b" r = Some (json_ids a_nb)
  /\ field "b_not_a" r = Some (json_ids b_na)
  /\ Sorted Z.le a_nb /\ Sorted Z.le b_na
  /\ count_field "a_not_b" r = Some (JInt (Z.of_nat (length a_nb)))
  /\ count_field "b_not_a" r = Some (JInt (Z.of_nat (length b_na))).

End Spec.

Import Spec.

(** ** The vocabulary of the further properties *)

Module More.

Fixpoint count_char (c : ascii) (s : string) : nat :=
  match s with
  | EmptyString => O
  | String d r => (if Ascii.eqb d c then 1 else 0) + count_char c r
  end.

(** The characters a coordinate string may hold: the digits, the two
    signs, the white space [int] skips and the separator. *)
Definition coordinate_char (c : ascii) : bool :=
  Py.isdigit c || Py.int_isspace c
  || Ascii.eqb c "+" || Ascii.eqb c "-" || Ascii.eqb c "_".

(** A character as a canonical key holds them: not the space, and one
    that [str.lower] leaves alone. *)
Definition key_char (c : ascii) : bool :=
  negb (Ascii.eqb c " ") && Ascii.eqb (Py.lower_char c) c.

(** One character of a key: lowercased, then the space replaced. *)
Definition key_of_char (c : ascii) : ascii :=
  if Ascii.eqb (Py.lower_char c) " " then "_"%char else Py.lower_char c.

(** The process after the environment variable was set to [u] (or
    unset). *)
Definition setenv (u : option string) (w : world) : world :=
  World u (_engine w) (db w) (trace w).

Definition is_commit (e : event) : bool :=
  match e with EvCommit => true | _ => false end.

Definition is_rollback (e : event) : bool :=
  match e with EvRollback => true | _ => false end.

Definition is_execute (s : statement) (e : event) : bool :=
  match e, s with
  | EvExecute SetSearchPath, SetSearchPath
  | EvExecute SelectVersion, SelectVersion
  | EvExecute CountCoordinates, CountCoordinates
  | EvExecute CountMetadata, CountMetadata
  | EvExecute CountAnnotationsTerms, CountAnnotationsTerms
  | EvExecute SampleCoordinates, SampleCoordinates
  | EvExecute SampleMetadata, SampleMetadata
  | EvExecute SampleAnnotationsTerms, SampleAnnotationsTerms => true
  | _, _ => false
  end.

(** How often the statement [s] of the diagnostic view was sent. *)
Definition times_executed (s : statement) (evs : list event) : nat :=
  length (List.filter (is_execute s) evs).

(** The first error of the transaction of a dissociation view around
    its statement [s]. *)
Definition transaction_error (st : store) (s : statement) : option string :=
  first_error [connect_error st; statement_error st SetSearchPath;
               statement_error st s; commit_error st].

(** What a dissociation view sends to the store, latest first: the
    statement only after [SET search_path] went through, and a commit
    only after both did; a failed statement is followed by a rollback. *)
Definition transaction_events (st : store) (s : statement) : list event :=
  match connect_error st with
  | Some _ => [EvBegin]
  | None =>
      match statement_error st SetSearchPath with
      | Some _ => [EvRollback; EvExecute SetSearchPath; EvBegin]
      | None =>
          match statement_error st s with
          | Some _ => [EvRollback; EvExecute s; EvExecute SetSearchPath; EvBegin]
          | None => [EvCommit; EvExecute s; EvExecute SetSearchPath; EvBegin]
          end
      end
  end.

(** The first error among the five statements of the diagnostic view
    that are not guarded. *)
Definition unguarded_error (st : store) : option string :=
  first_error [statement_error st SetSearchPath;
               statement_error st SelectVersion;
               statement_error st CountCoordinates;
               statement_error st CountMetadata;
               statement_error st CountAnnotationsTerms].

(** The rows of a JSON list field of a response, if it is one. *)
Definition list_field (k : string) (r : response) : option (list json) :=
  match field k r with
  | Some (JList l) => Some l
  | _ => None
  end.

(** A list field of at most three rows. *)
Definition at_most_three (k : string) (r : response) : Prop :=
  exists l, list_field k r = Some l /\ (length l <= 3)%nat.

(** A dissociation response with nothing in it. *)
Definition both_empty (r : response) : Prop :=
  status r = 200
  /\ field "a_not_b" r = Some (JList []) /\ field "b_not_a" r = Some (JList [])
  /\ count_field "a_not_b" r = Some (JInt 0)
  /\ count_field "b_not_a" r = Some (JInt 0).

(** The small database with its annotation rows in another order and
    some of them repeated, and the coordinate rows likewise. *)
Definition shuffled_store : store :=
  Store
    [Annotation 404 (JInt 1) "terms_abstract_tfidf__amygdala" 0;
     Annotation 303 (JInt 1) "terms_abstract_tfidf__hippocampus" (4 # 10);
     Annotation 101 (JInt 2) "terms_abstract_tfidf__amygdala" (1 # 10);
     Annotation 202 (JInt 1) "terms_abstract_tfidf__hippocampus" (2 # 10);
     Annotation 303 (JInt 1) "terms_abstract_tfidf__amygdala" (1 # 10);
     Annotation 101 (JInt 1) "terms_abstract_tfidf__amygdala" (3 # 10);
     Annotation 202 (JInt 1) "terms_abstract_tfidf__hippocampus" (2 # 10)]
    [Coordinate 303 (-2 # 1) 0 (4 # 1);
     Coordinate 101 (10 # 1) (20 # 1) (30 # 1);
     Coordinate 303 (101 # 10) (199 # 10) (30 # 1);
     Coordinate 202 (-19 # 10) (1 # 10) (41 # 10);
     Coordinate 101 (10 # 1) (20 # 1) (30 # 1)]
    []
    "PostgreSQL 15.4"
    (fun q => Qfloor (q + (1 # 2)))
    None (fun _ => None) None (fun _ => None).

(** The small database behind a store that refuses the term
    dissociation statement and the metadata sample. *)
Definition flaky_store : store :=
  Store (annotations_terms example_store) (coordinates example_store)
    (metadata example_store) (version example_store) (round example_store)
    None
    (fun s =>
       match s with
       | DissociateTerms _ _ => Some "canceling statement due to statement timeout"
       | SampleMetadata => Some "permission denied for table metadata"
       | _ => None
       end)
    None
    (url_refusal example_store).

Definition flaky_world : world :=
  World (Some "postgres://reader@localhost/neurosynth") None flaky_store [].

Definition shuffled_world : world :=
  World (Some "postgresql://reader@localhost/neurosynth") None shuffled_store [].

End More.

Import More.

(** * Properties *)

(** ** Strings *)

Lemma append_String (c : ascii) (l x : string) : String c l ++ x = String c (l ++ x).
Proof. reflexivity. Qed.

Lemma append_Empty (x : string) : EmptyString ++ x = x.
Proof. reflexivity. Qed.

Section Strip.
Variable sp : ascii -> bool.

Lemma lstrip_by_split (s : string) :
  exists l, s = l ++ Py.lstrip_by sp s /\ all_chars sp l = true
            /\ forall c r, Py.lstrip_by sp s = String c r -> sp c = false.
Proof.
  induction s as [| c s IH]; simpl.
  - exists EmptyString. repeat split; [discriminate].
  - destruct (sp c) eqn:Hc.
    + destruct IH as (l & Hl & Hsp & Hhd).
      exists (String c l). rewrite append_String. simpl. rewrite Hc, Hsp.
      repeat split; [f_equal; exact Hl | exact Hhd].
    + exists EmptyString. repeat split. intros c' r' [= <- _]. exact Hc.
Qed.

Lemma rstrip_by_split (s : string) :
  exists r, s = Py.rstrip_by sp s ++ r /\ all_chars sp r = true
            /\ forall p c, Py.rstrip_by sp s = p ++ String c EmptyString -> sp c = false.
Proof.
  induction s as [| c s IH]; simpl.
  - exists EmptyString. repeat split. intros [| ? ?] ? ?; discriminate.
  - destruct IH as (r & Hr & Hsp & Hend).
    destruct (Py.rstrip_by sp s) as [| d u] eqn:Hu.
    + rewrite append_Empty in Hr. subst r. destruct (sp c) eqn:Hc.
      * exists (String c s). simpl. rewrite Hc. repeat split; [exact Hsp |].
        intros [| ? ?] ? ?; discriminate.
      * exists s. repeat split; [exact Hsp |].
        intros [| ? [| ? ?]] c' H; try discriminate H.
        injection H as <-. exact Hc.
    + exists r. rewrite append_String. repeat split; [f_equal; exact Hr | exact Hsp |].
      intros [| c0 p] c' H; [discriminate H |].
      rewrite append_String in H.
      injection H as _ H. apply (Hend p c'). exact H.
Qed.

Lemma rstrip_by_head (s : string) :
  (forall c r, s = String c r -> sp c = false) ->
  forall c r, Py.rstrip_by sp s = String c r -> sp c = false.
Proof.
  intros Hs c r. destruct s as [| d u]; simpl; [discriminate |].
  specialize (Hs d u eq_refl).
  destruct (Py.rstrip_by sp u); [rewrite Hs |]; intros [= <- _]; exact Hs.
Qed.

Lemma lstrip_by_app_ws (l x : string) :
  all_chars sp l = true -> Py.lstrip_by sp (l ++ x) = Py.lstrip_by sp x.
Proof.
  induction l as [| c l IH]; [reflexivity |].
  rewrite append_String. simpl. intros H. apply andb_prop in H as [Hc Hl].
  rewrite Hc. apply IH, Hl.
Qed.

Lemma lstrip_by_all_ws (r : string) :
  all_chars sp r = true -> Py.lstrip_by sp r = EmptyString.
Proof.
  induction r as [| c r IH]; [reflexivity |].
  simpl. intros H. apply andb_prop in H as [Hc Hr]. rewrite Hc. apply IH, Hr.
Qed.

Lemma lstrip_by_app (t r : string) :
  Py.lstrip_by sp (t ++ r)
  = match Py.lstrip_by sp t with
    | EmptyString => Py.lstrip_by sp r
    | s => s ++ r
    end.
Proof.
  induction t as [| c t IH]; [reflexivity |].
  rewrite append_String. simpl. destruct (sp c); [exact IH | reflexivity].
Qed.

Lemma rstrip_by_all_ws (r : string) :
  all_chars sp r = true -> Py.rstrip_by sp r = EmptyString.
Proof.
  induction r as [| c r IH]; [reflexivity |].
  simpl. intros H. apply andb_prop in H as [Hc Hr]. rewrite (IH Hr), Hc. reflexivity.
Qed.

Lemma rstrip_by_app_ws (x r : string) :
  all_chars sp r = true -> Py.rstrip_by sp (x ++ r) = Py.rstrip_by sp x.
Proof.
  intros Hr. induction x as [| c x IH].
  - rewrite append_Empty. apply rstrip_by_all_ws, Hr.
  - rewrite append_String. simpl. rewrite IH. reflexivity.
Qed.

Lemma rstrip_by_clean (u : string) :
  (forall p c, u = p ++ String c EmptyString -> sp c = false) ->
  Py.rstrip_by sp u = u.
Proof.
  induction u as [| c u IH]; [reflexivity |].
  intros He. simpl. rewrite IH.
  - destruct u; [| reflexivity]. rewrite (He EmptyString c eq_refl). reflexivity.
  - intros p c' ->. apply (He (String c p) c'). reflexivity.
Qed.

End Strip.

Lemma strip_trimmed (t : string) : trimmed t (Py.strip t).
Proof.
  unfold trimmed, Py.strip.
  destruct (lstrip_by_split Py.isspace t) as (l & Hl & Hlsp & Hhd).
  destruct (rstrip_by_split Py.isspace (Py.lstrip_by Py.isspace t)) as (r & Hr & Hrsp & Hend).
  exists l, r. repeat split.
  - rewrite <- Hr. exact Hl.
  - exact Hlsp.
  - exact Hrsp.
  - intros c u. apply rstrip_by_head. exact Hhd.
  - exact Hend.
Qed.

Lemma lower_map_chars (s : string) : Py.lower s = lowercased s.
Proof. unfold lowercased. induction s; simpl; [reflexivity | f_equal; assumption]. Qed.

Lemma replace_map_chars (s : string) :
  Py.replace " " "_" s = space_to_underscore s.
Proof.
  unfold space_to_underscore. induction s; simpl; [reflexivity | f_equal; assumption].
Qed.

Lemma trimmed_strip (t u : string) : trimmed t u -> u = Py.strip t.
Proof.
  intros (l & r & -> & Hl & Hr & Hb & He). unfold Py.strip.
  rewrite lstrip_by_app_ws by exact Hl.
  destruct u as [| c u].
  - rewrite append_Empty, lstrip_by_all_ws by exact Hr. reflexivity.
  - rewrite append_String. simpl. rewrite (Hb c u eq_refl).
    rewrite <- append_String, rstrip_by_app_ws by exact Hr.
    symmetry. apply rstrip_by_clean, He.
Qed.

(** C2: the canonical key of a raw term is the namespace prefix, a
    double underscore, and the term trimmed of surrounding white space,
    lowercased, with each space replaced by an underscore; "Amygdala"
    and "Hippocampus" give the keys of the scenario. *)
Theorem canonical_key_spec (t : string) :
  (exists u, trimmed t u)
  /\ (forall u, trimmed t u ->
        canonical_key t
        = namespace_prefix ++ "__" ++ space_to_underscore (lowercased u))
  /\ canonical_key "Amygdala" = "terms_abstract_tfidf__amygdala"
  /\ canonical_key "Hippocampus" = "terms_abstract_tfidf__hippocampus".
Proof.
  split; [exists (Py.strip t); apply strip_trimmed |].
  split; [| split; reflexivity].
  intros u Hu. apply trimmed_strip in Hu as ->.
  unfold canonical_key. rewrite replace_map_chars, lower_map_chars. reflexivity.
Qed.

(** ** Coordinate strings *)

Lemma parse_coords_run {S} (s : string) (st : S) :
  parse_coords s st
  = match parsed s with
    | Ok c => (Ok c, st)
    | Raise _ => (Raise (HTTPException 400 coords_message), st)
    end.
Proof.
  unfold parse_coords, parsed, try_except, bind, pure_result, abort, raise, and_then.
  destruct (ints (Py.split "_" s)) as [ns | e]; [| reflexivity].
  destruct (unpack3 ns); reflexivity.
Qed.

Lemma ints_unpack3_Ok (tokens : list string) (x y z : Z) :
  and_then (ints tokens) unpack3 = Ok (x, y, z)
  <-> exists t1 t2 t3, tokens = [t1; t2; t3]
        /\ Py.int t1 = Some x /\ Py.int t2 = Some y /\ Py.int t3 = Some z.
Proof.
  split.
  - destruct tokens as [| t1 [| t2 [| t3 [| t4 l]]]]; simpl.
    + discriminate.
    + destruct (Py.int t1); simpl; discriminate.
    + destruct (Py.int t1); simpl; [| discriminate].
      destruct (Py.int t2); simpl; discriminate.
    + destruct (Py.int t1) as [n1 |] eqn:E1; simpl; [| discriminate].
      destruct (Py.int t2) as [n2 |] eqn:E2; simpl; [| discriminate].
      destruct (Py.int t3) as [n3 |] eqn:E3; simpl; [| discriminate].
      intros [= <- <- <-]. exists t1, t2, t3. done.
    + destruct (Py.int t1); simpl; [| discriminate].
      destruct (Py.int t2); simpl; [| discriminate].
      destruct (Py.int t3); simpl; [| discriminate].
      destruct (Py.int t4); simpl; [| discriminate].
      destruct (ints l); simpl; discriminate.
  - intros (t1 & t2 & t3 & -> & H1 & H2 & H3). simpl. rewrite H1, H2, H3. reflexivity.
Qed.

Lemma parsed_Ok (s : string) (x y z : Z) :
  parsed s = Ok (x, y, z) <-> three_integers s x y z.
Proof.
  unfold parsed, three_integers. rewrite ints_unpack3_Ok. split.
  - intros (t1 & t2 & t3 & H & Hi). exists t1, t2, t3. auto.
  - intros (t1 & t2 & t3 & H & Hi). exists t1, t2, t3. auto.
Qed.

Lemma parsed_Raise (s : string) :
  (exists e, parsed s = Raise e) <-> ~ well_formed s.
Proof.
  split.
  - intros [e He] (x & y & z & H). apply parsed_Ok in H. congruence.
  - intros Hn. destruct (parsed s) as [[[x y] z] | e] eqn:Hp; [| eauto].
    exfalso. apply Hn. exists x, y, z. apply parsed_Ok. exact Hp.
Qed.

Lemma unpack3_map_int_Ok (tokens : list string) (x y z : Z) :
  unpack3_map_int tokens = Ok (x, y, z)
  <-> exists t1 t2 t3, tokens = [t1; t2; t3]
        /\ Py.int t1 = Some x /\ Py.int t2 = Some y /\ Py.int t3 = Some z.
Proof.
  unfold unpack3_map_int, and_then, next_int. split.
  - destruct tokens as [| t1 [| t2 [| t3 [| t4 l]]]]; simpl.
    + discriminate.
    + destruct (Py.int t1); simpl; discriminate.
    + destruct (Py.int t1); simpl; [| discriminate].
      destruct (Py.int t2); simpl; discriminate.
    + destruct (Py.int t1) as [n1 |] eqn:E1; simpl; [| discriminate].
      destruct (Py.int t2) as [n2 |] eqn:E2; simpl; [| discriminate].
      destruct (Py.int t3) as [n3 |] eqn:E3; simpl; [| discriminate].
      intros [= <- <- <-]. exists t1, t2, t3. done.
    + destruct (Py.int t1); simpl; [| discriminate].
      destruct (Py.int t2); simpl; [| discriminate].
      destruct (Py.int t3); simpl; [| discriminate].
      destruct (Py.int t4); simpl; discriminate.
  - intros (t1 & t2 & t3 & -> & H1 & H2 & H3). simpl. rewrite H1, H2, H3. reflexivity.
Qed.

Lemma unpack3_map_int_raises (tokens : list string) :
  (exists c, unpack3_map_int tokens = Ok c)
  \/ (exists why, unpack3_map_int tokens = Raise (ValueError why)).
Proof.
  unfold unpack3_map_int, and_then, next_int.
  destruct tokens as [| t1 [| t2 [| t3 [| t4 l]]]]; simpl;
    repeat match goal with
           | |- context [Py.int ?t] => destruct (Py.int t); simpl
           end; eauto.
Qed.

Lemma not_well_formed_1_2 : ~ well_formed "1_2".
Proof. intros (x & y & z & t1 & t2 & t3 & H & _). vm_compute in H. discriminate. Qed.

(** *** What [int] accepts *)

Lemma isdigit_plain (c : ascii) :
  Py.isdigit c = true ->
  Py.int_isspace c = false /\ Ascii.eqb c "+" = false /\ Ascii.eqb c "-" = false.
Proof.
  destruct c as [[] [] [] [] [] [] [] []]; intros H; try discriminate H;
    repeat split; reflexivity.
Qed.

(** [int] ignores the white space around a token. *)
Lemma int_surrounding_whitespace (l t r : string) :
  all_chars Py.int_isspace l = true -> all_chars Py.int_isspace r = true ->
  Py.int (l ++ t ++ r) = Py.int t.
Proof.
  intros Hl Hr. unfold Py.int.
  rewrite lstrip_by_app_ws by exact Hl. rewrite lstrip_by_app.
  destruct (Py.lstrip_by Py.int_isspace t) as [| c s].
  - rewrite lstrip_by_all_ws by exact Hr. reflexivity.
  - rewrite rstrip_by_app_ws by exact Hr. reflexivity.
Qed.

Lemma rstrip_by_String (sp : ascii -> bool) (c : ascii) (s : string) :
  Py.rstrip_by sp (String c s)
  = match Py.rstrip_by sp s with
    | EmptyString => if sp c then EmptyString else String c EmptyString
    | r' => String c r'
    end.
Proof. reflexivity. Qed.

(** [int] accepts a plus sign before the first digit. *)
Lemma int_plus_sign (c : ascii) (d : string) :
  Py.isdigit c = true ->
  Py.int (String "+" (String c d)) = Py.int (String c d).
Proof.
  intros Hc. destruct (isdigit_plain c Hc) as (Hsp & Hplus & Hminus).
  unfold Py.int. cbn [Py.lstrip_by].
  change (Py.int_isspace "+") with false. rewrite Hsp. cbv beta iota.
  rewrite (rstrip_by_String _ "+"), (rstrip_by_String _ c), Hsp.
  destruct (Py.rstrip_by Py.int_isspace d) as [| c' d'];
    cbv beta iota; rewrite Hplus, Hminus; reflexivity.
Qed.

(** C10: [parse_coords] aborts with 400 exactly when the string does not
    split on the underscore into exactly three tokens that [int]
    accepts, and otherwise returns the three integers; [int] ignores
    white space around a token and accepts a plus sign before its first
    digit, so "+1_ 2_3" is accepted as (1, 2, 3). *)
Theorem parse_coords_exact {S} (s : string) (st : S) :
  (parse_coords s st = (Raise (HTTPException 400 coords_message), st)
   <-> ~ well_formed s)
  /\ (forall x y z,
        parse_coords s st = (Ok (x, y, z), st) <-> three_integers s x y z)
  /\ (forall l t r,
        all_chars Py.int_isspace l = true -> all_chars Py.int_isspace r = true ->
        Py.int (l ++ t ++ r) = Py.int t)
  /\ (forall c d,
        Py.isdigit c = true ->
        Py.int (String "+" (String c d)) = Py.int (String c d))
  /\ parse_coords "+1_ 2_3" st = (Ok (1, 2, 3), st).
Proof.
  split; [| split; [| split; [| split]]].
  - rewrite parse_coords_run, <- parsed_Raise. split.
    + destruct (parsed s) as [c | e]; [discriminate | eauto].
    + intros [e ->]. reflexivity.
  - intros x y z. rewrite parse_coords_run, <- parsed_Ok. split.
    + destruct (parsed s) as [c | e]; [| discriminate]. intros [= ->]. reflexivity.
    + intros ->. reflexivity.
  - apply int_surrounding_whitespace.
  - apply int_plus_sign.
  - rewrite parse_coords_run. reflexivity.
Qed.

(** C3: when either coordinate string does not split into exactly three
    integer tokens, the coordinate dissociation route answers 400 with
    the descriptive message and leaves the process as it was: no engine
    is created and nothing is sent to the store; "1_2" on either side is
    such a string. *)
Theorem dissociate_locations_malformed (w : world) (coord1 coord2 : string) :
  (~ well_formed coord1 \/ ~ well_formed coord2 ->
   serve (dissociate_locations coord1 coord2) w
   = (Response 400 (ErrorPage coords_message), w))
  /\ serve (dissociate_locations "1_2" coord2) w
     = (Response 400 (ErrorPage coords_message), w)
  /\ serve (dissociate_locations coord1 "1_2") w
     = (Response 400 (ErrorPage coords_message), w).
Proof.
  assert (Hmain : forall c1 c2, ~ well_formed c1 \/ ~ well_formed c2 ->
            serve (dissociate_locations c1 c2) w
            = (Response 400 (ErrorPage coords_message), w)).
  { intros c1 c2 H. unfold serve, dissociate_locations, bind.
    rewrite parse_coords_run.
    destruct (parsed c1) as [[[x1 y1] z1] | e1] eqn:H1; [| reflexivity].
    rewrite parse_coords_run.
    destruct (parsed c2) as [[[x2 y2] z2] | e2] eqn:H2; [| reflexivity].
    exfalso. destruct H as [H | H]; apply H.
    - exists x1, y1, z1. apply parsed_Ok. exact H1.
    - exists x2, y2, z2. apply parsed_Ok. exact H2. }
  split; [apply Hmain | split; apply Hmain].
  - left. apply not_well_formed_1_2.
  - right. apply not_well_formed_1_2.
Qed.

(** C6: the route [/locations/<coords>/studies] answers the JSON array
    of the three integers when the segment splits into three integer
    tokens, and otherwise lets a [ValueError] escape the view, which
    Flask answers with its generic 500 page, not with a 400. *)
Theorem get_studies_by_coordinates_spec (w : world) (coords : string) :
  (forall x y z, three_integers coords x y z ->
     serve (get_studies_by_coordinates coords) w
     = (Response 200 (Json (JList [JInt x; JInt y; JInt z])), w))
  /\ (~ well_formed coords ->
      (exists why,
         get_studies_by_coordinates coords w = (Raise (ValueError why), w))
      /\ serve (get_studies_by_coordinates coords) w = (internal_server_error, w)).
Proof.
  split.
  - intros x y z H. apply unpack3_map_int_Ok in H.
    unfold serve, get_studies_by_coordinates, bind, pure_result. rewrite H. reflexivity.
  - intros Hn.
    destruct (unpack3_map_int_raises (Py.split "_" coords)) as [[[[x y] z] H] | [why H]].
    + exfalso. apply Hn. exists x, y, z. apply unpack3_map_int_Ok. exact H.
    + unfold serve, get_studies_by_coordinates, bind, pure_result. rewrite H.
      split; [exists why |]; reflexivity.
Qed.

(** ** The connection provider *)

Lemma get_engine_run (w : world) :
  get_engine w
  = match _engine w with
    | Some e => (Ok e, w)
    | None =>
        match DB_URL w with
        | None | Some EmptyString => (Raise (RuntimeError missing_db_url), w)
        | Some u =>
            match url_refusal (db w) (normalize_scheme u) with
            | Some why => (Raise (refusal_exn why), w)
            | None =>
                (Ok (Engine (normalize_scheme u) true),
                 set_engine (Engine (normalize_scheme u) true) w)
            end
        end
    end.
Proof.
  unfold get_engine, bind, read_engine, getenv_DB_URL, write_engine, ret, raise,
    create_engine.
  destruct (_engine w); [reflexivity |].
  destruct (DB_URL w) as [[| c r] |]; try reflexivity.
  destruct (url_refusal (db w) (normalize_scheme (String c r))); reflexivity.
Qed.

Lemma get_engine_configured (w : world) :
  configured w ->
  exists e w', get_engine w = (Ok e, w') /\ db w' = db w /\ trace w' = trace w.
Proof.
  intros Hc. rewrite get_engine_run.
  destruct (_engine w) as [e |] eqn:He; [exists e, w; auto |].
  destruct Hc as [[e' He'] | (c & r & Hu & Hok)]; [congruence | rewrite Hu, Hok].
  eexists _, _. split; [reflexivity | split; reflexivity].
Qed.

(** At first use with a non-empty value, the provider does what
    [create_engine] does with the normalised value. *)
Lemma get_engine_first_use (c : ascii) (r : string) (st : store) (tr : list event) :
  get_engine (World (Some (String c r)) None st tr)
  = match url_refusal st (normalize_scheme (String c r)) with
    | Some why => (Raise (refusal_exn why), World (Some (String c r)) None st tr)
    | None =>
        (Ok (Engine (normalize_scheme (String c r)) true),
         World (Some (String c r))
               (Some (Engine (normalize_scheme (String c r)) true)) st tr)
    end.
Proof.
  rewrite get_engine_run. simpl.
  destruct (url_refusal st (normalize_scheme (String c r))); reflexivity.
Qed.

(** C7: at first use, a configuration value that begins with the legacy
    scheme [postgres://] reaches [create_engine] with the canonical
    scheme [postgresql://] in its place, and a value that already begins
    with the canonical scheme reaches it unchanged: the provider raises
    what [create_engine] raises on that URL, and otherwise returns and
    caches the engine of that URL. *)
Theorem get_engine_normalizes_scheme (rest : string) (st : store) (tr : list event) :
  normalize_scheme ("postgres://" ++ rest) = "postgresql://" ++ rest
  /\ normalize_scheme ("postgresql://" ++ rest) = "postgresql://" ++ rest
  /\ get_engine (World (Some ("postgres://" ++ rest)) None st tr)
     = match create_engine ("postgresql://" ++ rest) true
               (World (Some ("postgres://" ++ rest)) None st tr) with
       | (Ok e, _) =>
           (Ok e, World (Some ("postgres://" ++ rest)) (Some e) st tr)
       | (Raise x, _) =>
           (Raise x, World (Some ("postgres://" ++ rest)) None st tr)
       end
  /\ get_engine (World (Some ("postgresql://" ++ rest)) None st tr)
     = match create_engine ("postgresql://" ++ rest) true
               (World (Some ("postgresql://" ++ rest)) None st tr) with
       | (Ok e, _) =>
           (Ok e, World (Some ("postgresql://" ++ rest)) (Some e) st tr)
       | (Raise x, _) =>
           (Raise x, World (Some ("postgresql://" ++ rest)) None st tr)
       end
  /\ (url_refusal st ("postgresql://" ++ rest) = None ->
      get_engine (World (Some ("postgres://" ++ rest)) None st tr)
      = (Ok (Engine ("postgresql://" ++ rest) true),
         World (Some ("postgres://" ++ rest))
               (Some (Engine ("postgresql://" ++ rest) true)) st tr)
      /\ get_engine (World (Some ("postgresql://" ++ rest)) None st tr)
         = (Ok (Engine ("postgresql://" ++ rest) true),
            World (Some ("postgresql://" ++ rest))
                  (Some (Engine ("postgresql://" ++ rest) true)) st tr)).
Proof.
  pose proof (get_engine_first_use "p" ("ostgres://" ++ rest) st tr) as Hlegacy.
  pose proof (get_engine_first_use "p" ("ostgresql://" ++ rest) st tr) as Hcanon.
  change (String "p" ("ostgres://" ++ rest)) with ("postgres://" ++ rest) in Hlegacy.
  change (String "p" ("ostgresql://" ++ rest)) with ("postgresql://" ++ rest) in Hcanon.
  change (normalize_scheme ("postgres://" ++ rest))
    with ("postgresql://" ++ rest) in Hlegacy.
  change (normalize_scheme ("postgresql://" ++ rest))
    with ("postgresql://" ++ rest) in Hcanon.
  split; [reflexivity |]. split; [reflexivity |].
  unfold create_engine. cbn [db].
  split; [| split].
  - rewrite Hlegacy. destruct (url_refusal st ("postgresql://" ++ rest)); reflexivity.
  - rewrite Hcanon. destruct (url_refusal st ("postgresql://" ++ rest)); reflexivity.
  - intros Hok. rewrite Hlegacy, Hcanon, Hok. split; reflexivity.
Qed.

(** C8, as the code has it: at first use, when the configuration value
    is absent or empty the provider raises the [RuntimeError], returns
    no engine and caches none, so a request to a view that needs the
    store is answered with the generic 500 page; the error is raised
    for each such request and changes nothing in the process, which
    still answers the requests that need no store; when the value is
    present and not empty the provider does not raise for that reason:
    it raises what [create_engine] raises on the normalised value, or
    returns and caches the engine. *)
Theorem get_engine_missing_configuration (st : store) (tr : list event) :
  let absent := World None None st tr in
  let empty := World (Some EmptyString) None st tr in
  get_engine absent = (Raise (RuntimeError missing_db_url), absent)
  /\ get_engine empty = (Raise (RuntimeError missing_db_url), empty)
  /\ (forall a b,
        serve (dissociate_terms a b) absent = (internal_server_error, absent)
        /\ serve (dissociate_terms a b) empty = (internal_server_error, empty))
  /\ (forall coord1 coord2,
        well_formed coord1 -> well_formed coord2 ->
        serve (dissociate_locations coord1 coord2) absent
        = (internal_server_error, absent)
        /\ serve (dissociate_locations coord1 coord2) empty
           = (internal_server_error, empty))
  /\ serve test_db absent = (internal_server_error, absent)
  /\ serve test_db empty = (internal_server_error, empty)
  /\ (forall coords x y z,
        three_integers coords x y z ->
        serve (get_studies_by_coordinates coords) absent
        = (Response 200 (Json (JList [JInt x; JInt y; JInt z])), absent)
        /\ serve (get_studies_by_coordinates coords) empty
           = (Response 200 (Json (JList [JInt x; JInt y; JInt z])), empty))
  /\ (forall c r,
        get_engine (World (Some (String c r)) None st tr)
        = match url_refusal st (normalize_scheme (String c r)) with
          | Some why =>
              (Raise (refusal_exn why), World (Some (String c r)) None st tr)
          | None =>
              (Ok (Engine (normalize_scheme (String c r)) true),
               World (Some (String c r))
                     (Some (Engine (normalize_scheme (String c r)) true)) st tr)
          end)
  /\ (forall c r msg,
        (get_engine (World (Some (String c r)) None st tr)).1
        <> Raise (RuntimeError msg)).
Proof.
  intros absent empty.
  split; [reflexivity |]. split; [reflexivity |].
  split; [intros a b; split; reflexivity |].
  split.
  { intros coord1 coord2 (x1 & y1 & z1 & H1) (x2 & y2 & z2 & H2).
    apply parsed_Ok in H1, H2.
    split; unfold serve, dissociate_locations, bind;
      rewrite parse_coords_run, H1; cbv beta iota;
      rewrite parse_coords_run, H2; reflexivity. }
  split; [reflexivity |]. split; [reflexivity |].
  split.
  { intros coords x y z H. apply unpack3_map_int_Ok in H.
    split; unfold serve, get_studies_by_coordinates, bind, pure_result;
      rewrite H; reflexivity. }
  split; [intros c r; apply get_engine_first_use |].
  intros c r msg. rewrite get_engine_first_use.
  destruct (url_refusal st (normalize_scheme (String c r))) as [[m | m | m] |];
    discriminate.
Qed.

(** C8 as stated fails: with the variable unset the provider raises,
    and yet the process serves: the coordinate echo answers 200 and the
    coordinate view answers a malformed string with 400; and the error
    is not fatal, the next call returns an engine once the variable is
    set. *)
Lemma missing_configuration_not_fatal :
  get_engine unconfigured_world
  = (Raise (RuntimeError missing_db_url), unconfigured_world)
  /\ serve (get_studies_by_coordinates "10_20_30") unconfigured_world
     = (Response 200 (Json (JList [JInt 10; JInt 20; JInt 30])), unconfigured_world)
  /\ serve (dissociate_locations "1_2" "10_20_30") unconfigured_world
     = (Response 400 (ErrorPage coords_message), unconfigured_world)
  /\ get_engine (World (Some "postgresql://reader@localhost/neurosynth")
                   (_engine unconfigured_world) (db unconfigured_world)
                   (trace unconfigured_world))
     = (Ok (Engine "postgresql://reader@localhost/neurosynth" true),
        World (Some "postgresql://reader@localhost/neurosynth")
          (Some (Engine "postgresql://reader@localhost/neurosynth" true))
          (db unconfigured_world) (trace unconfigured_world))
  /\ ~ (forall view : M response,
          (serve view unconfigured_world).1 = internal_server_error).
Proof.
  repeat (split; [reflexivity |]).
  intros H. specialize (H (get_studies_by_coordinates "10_20_30")). discriminate H.
Qed.

(** ** The dissociation statement *)

Lemma row_leb_cases (r1 r2 : row) :
  row_leb r1 r2
  = match kind r1, kind r2 with
    | A_not_B, B_not_A => true
    | B_not_A, A_not_B => false
    | _, _ => study_id r1 <=? study_id r2
    end.
Proof. destruct r1 as [[] i1], r2 as [[] i2]; reflexivity. Qed.

#[local] Instance row_le_total : Total row_le.
Proof.
  intros r1 r2. unfold row_le. rewrite !row_leb_cases.
  destruct (kind r1), (kind r2); auto; rewrite !Z.leb_le; lia.
Qed.

#[local] Instance row_le_transitive : Transitive row_le.
Proof.
  intros r1 r2 r3. unfold row_le. rewrite !row_leb_cases.
  destruct (kind r1), (kind r2), (kind r3); auto; try discriminate;
    rewrite !Z.leb_le; lia.
Qed.

Lemma label_inj (t1 t2 : tag) : label t1 = label t2 -> t1 = t2.
Proof. destruct t1, t2; simpl; intros H; try reflexivity; discriminate H. Qed.

Lemma order_by_1_2_sorted (rows : list row) :
  StronglySorted row_le (order_by_1_2 rows).
Proof. apply StronglySorted_merge_sort; apply _. Qed.

Lemma order_by_1_2_perm (rows : list row) : order_by_1_2 rows ≡ₚ rows.
Proof. apply merge_sort_Permutation. Qed.

Lemma study_ids_of_kind_perm (k : string) (rows rows' : list row) :
  rows ≡ₚ rows' -> study_ids_of_kind k rows ≡ₚ study_ids_of_kind k rows'.
Proof. intros H. unfold study_ids_of_kind. rewrite H. reflexivity. Qed.

Lemma study_ids_of_kind_app (k : string) (rows rows' : list row) :
  study_ids_of_kind k (rows ++ rows')
  = (study_ids_of_kind k rows ++ study_ids_of_kind k rows')%list.
Proof. unfold study_ids_of_kind. rewrite filter_app, fmap_app. reflexivity. Qed.

Lemma study_ids_of_kind_tagged (k : string) (t : tag) (ids : list Z) :
  study_ids_of_kind k (Row t <$> ids) = if decide (label t = k) then ids else [].
Proof.
  unfold study_ids_of_kind.
  induction ids as [| i ids IH]; [destruct (decide _); reflexivity |].
  rewrite fmap_cons. destruct (decide (label t = k)) as [Hk | Hk].
  - rewrite filter_cons_True by exact Hk. rewrite fmap_cons, IH. reflexivity.
  - rewrite filter_cons_False by exact Hk. exact IH.
Qed.

Lemma study_ids_of_kind_sorted (t : tag) (rows : list row) :
  StronglySorted row_le rows ->
  StronglySorted Z.le (study_ids_of_kind (label t) rows).
Proof.
  unfold study_ids_of_kind. induction 1 as [| r rows Hs IH Hall].
  - constructor.
  - destruct (decide (label (kind r) = label t)) as [Hk | Hk].
    + rewrite filter_cons_True by exact Hk. rewrite fmap_cons. constructor; [exact IH |].
      apply Forall_forall. intros i Hi.
      apply list_elem_of_fmap in Hi as (r' & -> & Hr').
      apply list_elem_of_filter in Hr' as [Hk' Hr'].
      rewrite Forall_forall in Hall. specialize (Hall r' Hr').
      unfold row_le in Hall. rewrite row_leb_cases in Hall.
      apply label_inj in Hk, Hk'. rewrite Hk, Hk' in Hall.
      destruct t; apply Z.leb_le; exact Hall.
    + rewrite filter_cons_False by exact Hk. exact IH.
Qed.

(** The two lists a view builds from the rows of the statement: each is
    ascending and holds exactly the elements of one anti-join. *)
Lemma dissociation_a_not_b (a b : list Z) :
  StronglySorted Z.le (study_ids_of_kind "a_not_b" (dissociation a b))
  /\ study_ids_of_kind "a_not_b" (dissociation a b) ≡ₚ filter (fun s => s ∉ b) a.
Proof.
  split.
  - apply (study_ids_of_kind_sorted A_not_B), order_by_1_2_sorted.
  - unfold dissociation.
    rewrite (study_ids_of_kind_perm _ _ _ (order_by_1_2_perm _)).
    rewrite study_ids_of_kind_app, !study_ids_of_kind_tagged. simpl.
    rewrite app_nil_r. reflexivity.
Qed.

Lemma dissociation_b_not_a (a b : list Z) :
  StronglySorted Z.le (study_ids_of_kind "b_not_a" (dissociation a b))
  /\ study_ids_of_kind "b_not_a" (dissociation a b) ≡ₚ filter (fun s => s ∉ a) b.
Proof.
  split.
  - apply (study_ids_of_kind_sorted B_not_A), order_by_1_2_sorted.
  - unfold dissociation.
    rewrite (study_ids_of_kind_perm _ _ _ (order_by_1_2_perm _)).
    rewrite study_ids_of_kind_app, !study_ids_of_kind_tagged. simpl.
    reflexivity.
Qed.

(** Swapping the base sets swaps the two lists. *)
Lemma dissociation_swap (a b : list Z) :
  study_ids_of_kind "a_not_b" (dissociation b a)
  = study_ids_of_kind "b_not_a" (dissociation a b)
  /\ study_ids_of_kind "b_not_a" (dissociation b a)
     = study_ids_of_kind "a_not_b" (dissociation a b).
Proof.
  destruct (dissociation_a_not_b a b) as [Sa Pa], (dissociation_b_not_a a b) as [Sb Pb].
  destruct (dissociation_a_not_b b a) as [Sa' Pa'], (dissociation_b_not_a b a) as [Sb' Pb'].
  split; apply (StronglySorted_unique Z.le); try assumption.
  - rewrite Pa', Pb. reflexivity.
  - rewrite Pb', Pa. reflexivity.
Qed.

Lemma term_set_elem (st : store) (key : string) (s : Z) :
  s ∈ term_set st key <-> has_term st key s.
Proof.
  unfold term_set, select_distinct, has_term.
  rewrite elem_of_remove_dups, list_elem_of_fmap. split.
  - intros (r & -> & Hr). apply list_elem_of_filter in Hr as [[Hk Hw] Hr].
    exists r. auto.
  - intros (r & Hr & <- & Hk & Hw). exists r. split; [reflexivity |].
    apply list_elem_of_filter. auto.
Qed.

Lemma location_set_elem (st : store) (x y z : Z) (s : Z) :
  s ∈ location_set st x y z <-> has_location st x y z s.
Proof.
  unfold location_set, select_distinct, has_location.
  rewrite elem_of_remove_dups, list_elem_of_fmap. split.
  - intros (c & -> & Hc). apply list_elem_of_filter in Hc as [(Hx & Hy & Hz) Hc].
    exists c. auto.
  - intros (c & Hc & <- & Hx & Hy & Hz). exists c. split; [reflexivity |].
    apply list_elem_of_filter. auto.
Qed.

(** What holds of the two lists whatever the base sets are, given as
    lists without duplicates. *)
Lemma dissociation_partition (a b : list Z) :
  NoDup a -> NoDup b ->
  let a_nb := study_ids_of_kind "a_not_b" (dissociation a b) in
  let b_na := study_ids_of_kind "b_not_a" (dissociation a b) in
  NoDup a_nb /\ NoDup b_na
  /\ (forall s, s ∈ a_nb <-> s ∈ a /\ s ∉ b)
  /\ (forall s, s ∈ b_na <-> s ∈ b /\ s ∉ a).
Proof.
  intros Ha Hb a_nb b_na.
  destruct (dissociation_a_not_b a b) as [_ Pa], (dissociation_b_not_a a b) as [_ Pb].
  fold a_nb in Pa. fold b_na in Pb. repeat split.
  - rewrite Pa. apply NoDup_filter, Ha.
  - rewrite Pb. apply NoDup_filter, Hb.
  - rewrite Pa in H. apply list_elem_of_filter in H. tauto.
  - rewrite Pa in H. apply list_elem_of_filter in H. tauto.
  - intros [H1 H2]. rewrite Pa. apply list_elem_of_filter. tauto.
  - rewrite Pb in H. apply list_elem_of_filter in H. tauto.
  - rewrite Pb in H. apply list_elem_of_filter in H. tauto.
  - intros [H1 H2]. rewrite Pb. apply list_elem_of_filter. tauto.
Qed.

(** ** The dissociation views *)

Lemma partitions_of_lists (A B : Z -> Prop) (a b : list Z) :
  NoDup a -> NoDup b ->
  (forall s, s ∈ a <-> A s) -> (forall s, s ∈ b <-> B s) ->
  partitions A B (study_ids_of_kind "a_not_b" (dissociation a b))
                 (study_ids_of_kind "b_not_a" (dissociation a b)).
Proof.
  intros Ha Hb HA HB.
  destruct (dissociation_partition a b Ha Hb) as (Na & Nb & Ea & Eb).
  unfold partitions. split; [exact Na |]. split; [exact Nb |].
  assert (Ea' : forall s, s ∈ study_ids_of_kind "a_not_b" (dissociation a b)
                          <-> A s /\ ~ B s).
  { intros s. rewrite Ea, HA, HB. reflexivity. }
  assert (Eb' : forall s, s ∈ study_ids_of_kind "b_not_a" (dissociation a b)
                          <-> B s /\ ~ A s).
  { intros s. rewrite Eb, HA, HB. reflexivity. }
  split; [exact Ea' |]. split; [exact Eb' |].
  repeat split.
  - intros s [H1 H2]. apply Ea' in H1. apply Eb' in H2. tauto.
  - intros s [H1 H2]. apply Ea' in H1. tauto.
  - intros s [H1 H2]. apply Eb' in H1. tauto.
  - intros H. rewrite Ea', Eb'.
    destruct (decide (s ∈ a)) as [Ia | Ia], (decide (s ∈ b)) as [Ib | Ib];
      rewrite HA in Ia; rewrite HB in Ib; tauto.
  - rewrite Ea', Eb'. tauto.
Qed.

Lemma bind_run {S A B} (m : ST S A) (k : A -> ST S B) (s : S) :
  bind m k s
  = match m s with
    | (Ok a, s') => k a s'
    | (Raise e, s') => (Raise e, s')
    end.
Proof. reflexivity. Qed.

Lemma begin_two_statements {A} (w : world) (eng : engine) (s : statement)
    (answer : store -> A) :
  store_up (db w) ->
  begin eng (let* _ := execute SetSearchPath (fun _ => tt) in execute s answer) w
  = (Ok (answer (db w)),
     log EvCommit (log (EvExecute s) (log (EvExecute SetSearchPath) (log EvBegin w)))).
Proof.
  intros (Hc & Hm & Hs).
  unfold begin, begin_with, bind, try_except, tx_begin, tx_commit, execute, ret.
  rewrite Hc. simpl. rewrite !Hs. simpl. rewrite Hm. reflexivity.
Qed.

Lemma dissociate_terms_run (w : world) (term_a term_b : string) :
  serving w ->
  let a := canonical_key term_a in
  let b := canonical_key term_b in
  let rows := sql_dissociate_terms a b (db w) in
  let a_nb := study_ids_of_kind "a_not_b" rows in
  let b_na := study_ids_of_kind "b_not_a" rows in
  exists w',
    dissociate_terms term_a term_b w
    = (Ok (jsonify (JDict (dict [
         ("a", JStr a); ("b", JStr b);
         ("a_not_b", json_ids a_nb); ("b_not_a", json_ids b_na);
         ("counts", counts a_nb b_na)]))), w').
Proof.
  intros [Hc Hs]. simpl.
  destruct (get_engine_configured w Hc) as (e & w1 & He & Hdb & _).
  unfold dissociate_terms. rewrite bind_run, He. cbv beta iota.
  rewrite bind_run, begin_two_statements by (rewrite Hdb; exact Hs).
  rewrite Hdb. eexists. reflexivity.
Qed.

Lemma dissociate_locations_run (w : world) (coord1 coord2 : string)
    (x1 y1 z1 x2 y2 z2 : Z) :
  serving w -> three_integers coord1 x1 y1 z1 -> three_integers coord2 x2 y2 z2 ->
  let rows := sql_dissociate_locations x1 y1 z1 x2 y2 z2 (db w) in
  let a_nb := study_ids_of_kind "a_not_b" rows in
  let b_na := study_ids_of_kind "b_not_a" rows in
  exists w',
    dissociate_locations coord1 coord2 w
    = (Ok (jsonify (JDict (dict [
         ("a", xyz x1 y1 z1); ("b", xyz x2 y2 z2);
         ("a_not_b", json_ids a_nb); ("b_not_a", json_ids b_na);
         ("counts", counts a_nb b_na)]))), w').
Proof.
  intros [Hc Hs] H1 H2. simpl.
  apply parsed_Ok in H1, H2.
  destruct (get_engine_configured w Hc) as (e & w1 & He & Hdb & _).
  unfold dissociate_locations.
  rewrite bind_run, parse_coords_run, H1. cbv beta iota.
  rewrite bind_run, parse_coords_run, H2. cbv beta iota.
  rewrite bind_run, He. cbv beta iota.
  rewrite bind_run, begin_two_statements by (rewrite Hdb; exact Hs).
  rewrite Hdb. eexists. reflexivity.
Qed.

Lemma term_set_NoDup (st : store) (key : string) : NoDup (term_set st key).
Proof. apply NoDup_remove_dups. Qed.

Lemma location_set_NoDup (st : store) (x y z : Z) : NoDup (location_set st x y z).
Proof. apply NoDup_remove_dups. Qed.

(** C1: when the process serves, the two lists of either dissociation
    view have no duplicates, are the two differences of the base sets A
    and B of the two keys (or of the two triples), are disjoint, and
    with the intersection of A and B partition the union of A and B. *)
Theorem dissociation_partitions_union (w : world)
    (term_a term_b coord1 coord2 : string) (x1 y1 z1 x2 y2 z2 : Z) :
  serving w ->
  three_integers coord1 x1 y1 z1 -> three_integers coord2 x2 y2 z2 ->
  (exists r w' a_nb b_na,
     dissociate_terms term_a term_b w = (Ok r, w')
     /\ field "a_not_b" r = Some (json_ids a_nb)
     /\ field "b_not_a" r = Some (json_ids b_na)
     /\ partitions (has_term (db w) (canonical_key term_a))
                   (has_term (db w) (canonical_key term_b)) a_nb b_na)
  /\ (exists r w' a_nb b_na,
        dissociate_locations coord1 coord2 w = (Ok r, w')
        /\ field "a_not_b" r = Some (json_ids a_nb)
        /\ field "b_not_a" r = Some (json_ids b_na)
        /\ partitions (has_location (db w) x1 y1 z1)
                      (has_location (db w) x2 y2 z2) a_nb b_na).
Proof.
  intros Hw H1 H2. split.
  - destruct (dissociate_terms_run w term_a term_b Hw) as [w' Hrun].
    eexists _, w', _, _. split; [exact Hrun |].
    split; [reflexivity |]. split; [reflexivity |].
    apply partitions_of_lists;
      auto using term_set_NoDup, term_set_elem.
  - destruct (dissociate_locations_run w coord1 coord2 _ _ _ _ _ _ Hw H1 H2) as [w' Hrun].
    eexists _, w', _, _. split; [exact Hrun |].
    split; [reflexivity |]. split; [reflexivity |].
    apply partitions_of_lists;
      auto using location_set_NoDup, location_set_elem.
Qed.

(** C5: when the process serves, either dissociation view answers 200
    with two lists taken, tag by tag, from one result set that is
    ordered by tag and then by study identifier; each list is ascending,
    and the two counts are the lengths of the two lists. *)
Theorem dissociation_sorted_and_counted (w : world)
    (term_a term_b coord1 coord2 : string) (x1 y1 z1 x2 y2 z2 : Z) :
  serving w ->
  three_integers coord1 x1 y1 z1 -> three_integers coord2 x2 y2 z2 ->
  (exists r w',
     dissociate_terms term_a term_b w = (Ok r, w')
     /\ sorted_and_counted
          (sql_dissociate_terms (canonical_key term_a) (canonical_key term_b) (db w)) r)
  /\ (exists r w',
        dissociate_locations coord1 coord2 w = (Ok r, w')
        /\ sorted_and_counted
             (sql_dissociate_locations x1 y1 z1 x2 y2 z2 (db w)) r).
Proof.
  intros Hw H1 H2.
  assert (Hgen : forall a b ja jb,
            sorted_and_counted (dissociation a b)
              (jsonify (JDict (dict [
                 ("a", ja); ("b", jb);
                 ("a_not_b", json_ids (study_ids_of_kind "a_not_b" (dissociation a b)));
                 ("b_not_a", json_ids (study_ids_of_kind "b_not_a" (dissociation a b)));
                 ("counts", counts (study_ids_of_kind "a_not_b" (dissociation a b))
                                   (study_ids_of_kind "b_not_a" (dissociation a b)))])))).
  { intros a b ja jb. unfold sorted_and_counted.
    split; [apply order_by_1_2_sorted |].
    do 3 (split; [reflexivity |]).
    split; [apply StronglySorted_Sorted, dissociation_a_not_b |].
    split; [apply StronglySorted_Sorted, dissociation_b_not_a |].
    split; reflexivity. }
  split.
  - destruct (dissociate_terms_run w term_a term_b Hw) as [w' Hrun].
    eexists _, w'. split; [exact Hrun | apply Hgen].
  - destruct (dissociate_locations_run w coord1 coord2 _ _ _ _ _ _ Hw H1 H2) as [w' Hrun].
    eexists _, w'. split; [exact Hrun | apply Hgen].
Qed.

(** C4: on one database state, the term dissociation view called with
    the two terms swapped answers with the two lists exchanged and the
    two counts exchanged (and the two echoed keys exchanged). *)
Theorem dissociate_terms_swapped (w1 w2 : world) (term_a term_b : string) :
  serving w1 -> serving w2 -> db w1 = db w2 ->
  exists r r' w1' w2' a_nb b_na,
    dissociate_terms term_a term_b w1 = (Ok r, w1')
    /\ dissociate_terms term_b term_a w2 = (Ok r', w2')
    /\ field "a_not_b" r = Some (json_ids a_nb)
    /\ field "b_not_a" r = Some (json_ids b_na)
    /\ count_field "a_not_b" r = Some (JInt (Z.of_nat (length a_nb)))
    /\ count_field "b_not_a" r = Some (JInt (Z.of_nat (length b_na)))
    /\ field "a_not_b" r' = Some (json_ids b_na)
    /\ field "b_not_a" r' = Some (json_ids a_nb)
    /\ count_field "a_not_b" r' = Some (JInt (Z.of_nat (length b_na)))
    /\ count_field "b_not_a" r' = Some (JInt (Z.of_nat (length a_nb)))
    /\ field "a" r' = field "b" r /\ field "b" r' = field "a" r
    /\ status r' = status r.
Proof.
  intros H1 H2 Hdb.
  destruct (dissociate_terms_run w1 term_a term_b H1) as [w1' Hrun1].
  destruct (dissociate_terms_run w2 term_b term_a H2) as [w2' Hrun2].
  rewrite <- Hdb in Hrun2. unfold sql_dissociate_terms in Hrun1, Hrun2.
  destruct (dissociation_swap
              (term_set (db w1) (canonical_key term_a))
              (term_set (db w1) (canonical_key term_b))) as [Sa Sb].
  rewrite Sa, Sb in Hrun2.
  eexists _, _, w1', w2', _, _.
  split; [exact Hrun1 |]. split; [exact Hrun2 |].
  repeat split; reflexivity.
Qed.

(** ** The diagnostic view *)

Ltac oracle_cases :=
  repeat match goal with
         | |- context [connect_error ?d] => destruct (connect_error d) eqn:?; simpl
         | |- context [statement_error ?d ?s] =>
             destruct (statement_error d s) eqn:?; simpl
         | |- context [commit_error ?d] => destruct (commit_error d) eqn:?; simpl
         end.

Lemma test_db_run (w : world) :
  configured w ->
  exists r w', test_db w = (Ok r, w') /\ diagnostic_outcome (db w) r.
Proof.
  intros Hc. destruct (get_engine_configured w Hc) as (e & w1 & He & Hdb & _).
  destruct w1 as [u1 e1 st1 tr1]. simpl in Hdb. subst st1.
  unfold test_db. rewrite bind_run, He. cbv beta iota.
  unfold diagnostic_outcome, top_level_error, first_error, sample_value.
  cbv [with_local try_except begin_with bind lift tx_begin tx_commit
       tx_rollback execute sample setitem get_local ret raise jsonify_status].
  simpl.
  oracle_cases; eexists _, _; (split; [reflexivity |]); repeat split; reflexivity.
Qed.

(** C9, as the code has it: once the connection provider has returned
    an engine, the diagnostic view always answers; it answers 500 with
    the flag false and the error message attached exactly when the
    checkout, a statement outside the three guarded sample blocks, or
    the commit fails, and otherwise 200 with the flag true, where each
    sample is its rows or, when its own statement failed, the empty
    list. *)
Theorem test_db_outcome (w : world) :
  configured w ->
  exists r w', serve test_db w = (r, w') /\ diagnostic_outcome (db w) r.
Proof.
  intros Hc. destruct (test_db_run w Hc) as (r & w' & Hrun & Hout).
  exists r, w'. unfold serve. rewrite Hrun. auto.
Qed.

(** C9 as stated fails without configuration: no connection and no
    transaction fails, none being attempted, and yet the answer is the
    generic 500 page, with no flag and no message, because
    [get_engine] is called outside the [try]. *)
Lemma test_db_unconfigured :
  top_level_error (db unconfigured_world) = None
  /\ serve test_db unconfigured_world = (internal_server_error, unconfigured_world)
  /\ ~ (exists r w', serve test_db unconfigured_world = (r, w')
                     /\ diagnostic_outcome (db unconfigured_world) r).
Proof.
  split; [reflexivity |]. split; [reflexivity |].
  intros (r & w' & Hs & Ho).
  change (serve test_db unconfigured_world)
    with (internal_server_error, unconfigured_world) in Hs.
  injection Hs as <- _. destruct Ho as [Hstatus _]. discriminate Hstatus.
Qed.

(** ** The properties on the small database *)

Ltac example_serving :=
  split; [right; eexists _, _; split; reflexivity
         | split; [reflexivity | split; [reflexivity | intros ?; reflexivity]]].

Ltac example_three_integers :=
  eexists _, _, _; repeat split; reflexivity.

Lemma test_db_outcome_witness :
  configured example_world
  /\ exists r w', serve test_db example_world = (r, w')
                  /\ diagnostic_outcome (db example_world) r.
Proof.
  split; [right; eexists _, _; split; reflexivity |].
  apply (test_db_outcome example_world). right. eexists _, _. split; reflexivity.
Defined.

Lemma dissociation_partitions_union_witness :
  serving example_world
  /\ three_integers "10_20_30" 10 20 30
  /\ three_integers "-2_0_4" (-2) 0 4
  /\ (exists r w' a_nb b_na,
        dissociate_terms "Amygdala" "Hippocampus" example_world = (Ok r, w')
        /\ field "a_not_b" r = Some (json_ids a_nb)
        /\ field "b_not_a" r = Some (json_ids b_na)
        /\ partitions (has_term (db example_world) (canonical_key "Amygdala"))
                      (has_term (db example_world) (canonical_key "Hippocampus"))
                      a_nb b_na)
  /\ (exists r w' a_nb b_na,
        dissociate_locations "10_20_30" "-2_0_4" example_world = (Ok r, w')
        /\ field "a_not_b" r = Some (json_ids a_nb)
        /\ field "b_not_a" r = Some (json_ids b_na)
        /\ partitions (has_location (db example_world) 10 20 30)
                      (has_location (db example_world) (-2) 0 4) a_nb b_na).
Proof.
  split; [example_serving |].
  split; [example_three_integers |].
  split; [example_three_integers |].
  apply (dissociation_partitions_union example_world "Amygdala" "Hippocampus"
           "10_20_30" "-2_0_4" 10 20 30 (-2) 0 4);
    [example_serving | example_three_integers | example_three_integers].
Defined.

Lemma dissociation_sorted_and_counted_witness :
  serving example_world
  /\ three_integers "10_20_30" 10 20 30
  /\ three_integers "-2_0_4" (-2) 0 4
  /\ (exists r w',
        dissociate_terms "Amygdala" "Hippocampus" example_world = (Ok r, w')
        /\ sorted_and_counted
             (sql_dissociate_terms (canonical_key "Amygdala")
                (canonical_key "Hippocampus") (db example_world)) r)
  /\ (exists r w',
        dissociate_locations "10_20_30" "-2_0_4" example_world = (Ok r, w')
        /\ sorted_and_counted
             (sql_dissociate_locations 10 20 30 (-2) 0 4 (db example_world)) r).
Proof.
  split; [example_serving |].
  split; [example_three_integers |].
  split; [example_three_integers |].
  apply (dissociation_sorted_and_counted example_world "Amygdala" "Hippocampus"
           "10_20_30" "-2_0_4" 10 20 30 (-2) 0 4);
    [example_serving | example_three_integers | example_three_integers].
Defined.

Lemma dissociate_terms_swapped_witness :
  serving example_world
  /\ exists r r' w1' w2' a_nb b_na,
       dissociate_terms "Amygdala" "Hippocampus" example_world = (Ok r, w1')
       /\ dissociate_terms "Hippocampus" "Amygdala" example_world = (Ok r', w2')
       /\ field "a_not_b" r = Some (json_ids a_nb)
       /\ field "b_not_a" r = Some (json_ids b_na)
       /\ count_field "a_not_b" r = Some (JInt (Z.of_nat (length a_nb)))
       /\ count_field "b_not_a" r = Some (JInt (Z.of_nat (length b_na)))
       /\ field "a_not_b" r' = Some (json_ids b_na)
       /\ field "b_not_a" r' = Some (json_ids a_nb)
       /\ count_field "a_not_b" r' = Some (JInt (Z.of_nat (length b_na)))
       /\ count_field "b_not_a" r' = Some (JInt (Z.of_nat (length a_nb)))
       /\ field "a" r' = field "b" r /\ field "b" r' = field "a" r
       /\ status r' = status r.
Proof.
  split; [example_serving |].
  apply (dissociate_terms_swapped example_world example_world "Amygdala" "Hippocampus");
    [example_serving | example_serving | reflexivity].
Defined.

Lemma dissociate_locations_malformed_witness :
  ~ well_formed "1_2"
  /\ serve (dissociate_locations "1_2" "10_20_30") example_world
     = (Response 400 (ErrorPage coords_message), example_world).
Proof.
  assert (H : ~ well_formed "1_2").
  { intros (x & y & z & t1 & t2 & t3 & H & _). vm_compute in H. discriminate H. }
  split; [exact H |].
  apply (proj1 (dissociate_locations_malformed example_world "1_2" "10_20_30")).
  left. exact H.
Defined.

Lemma get_studies_by_coordinates_spec_witness :
  three_integers "10_20_30" 10 20 30
  /\ serve (get_studies_by_coordinates "10_20_30") example_world
     = (Response 200 (Json (JList [JInt 10; JInt 20; JInt 30])), example_world).
Proof.
  split; [example_three_integers |].
  apply (proj1 (get_studies_by_coordinates_spec example_world "10_20_30")).
  example_three_integers.
Defined.

(** The scenario of the two terms on the small database: study 101 has
    only the first term and study 202 only the second. *)
Example amygdala_hippocampus :
  exists r w',
    dissociate_terms "Amygdala" "Hippocampus" example_world = (Ok r, w')
    /\ field "a" r = Some (JStr "terms_abstract_tfidf__amygdala")
    /\ field "b" r = Some (JStr "terms_abstract_tfidf__hippocampus")
    /\ field "a_not_b" r = Some (JList [JInt 101])
    /\ field "b_not_a" r = Some (JList [JInt 202])
    /\ count_field "a_not_b" r = Some (JInt 1)
    /\ count_field "b_not_a" r = Some (JInt 1)
    /\ trace w' = [EvCommit;
                   EvExecute (DissociateTerms "terms_abstract_tfidf__amygdala"
                                "terms_abstract_tfidf__hippocampus");
                   EvExecute SetSearchPath; EvBegin].
Proof. eexists _, _. split; [reflexivity |]. repeat split; vm_compute; reflexivity. Qed.

(** Identical coordinates give two empty lists. *)
Example identical_coordinates :
  exists r w',
    dissociate_locations "10_20_30" "10_20_30" example_world = (Ok r, w')
    /\ field "a_not_b" r = Some (JList [])
    /\ field "b_not_a" r = Some (JList [])
    /\ count_field "a_not_b" r = Some (JInt 0)
    /\ count_field "b_not_a" r = Some (JInt 0).
Proof. eexists _, _. split; [reflexivity |]. repeat split; vm_compute; reflexivity. Qed.

(** * Further properties *)

(** ** Term keys *)

Section StripMaps.
Variable sp : ascii -> bool.

Lemma strip_by_padding (l t r : string) :
  all_chars sp l = true -> all_chars sp r = true ->
  Py.rstrip_by sp (Py.lstrip_by sp (l ++ t ++ r))
  = Py.rstrip_by sp (Py.lstrip_by sp t).
Proof.
  intros Hl Hr. rewrite lstrip_by_app_ws by exact Hl. rewrite lstrip_by_app.
  destruct (Py.lstrip_by sp t) as [| c s].
  - rewrite lstrip_by_all_ws by exact Hr. reflexivity.
  - rewrite rstrip_by_app_ws by exact Hr. reflexivity.
Qed.

Lemma lstrip_by_map (f : ascii -> ascii) (s : string) :
  (forall c, sp (f c) = sp c) ->
  Py.lstrip_by sp (map_chars f s) = map_chars f (Py.lstrip_by sp s).
Proof.
  intros Hf. induction s as [| c s IH]; [reflexivity |].
  simpl. rewrite Hf. destruct (sp c); [exact IH | reflexivity].
Qed.

Lemma rstrip_by_map (f : ascii -> ascii) (s : string) :
  (forall c, sp (f c) = sp c) ->
  Py.rstrip_by sp (map_chars f s) = map_chars f (Py.rstrip_by sp s).
Proof.
  intros Hf. induction s as [| c s IH]; [reflexivity |].
  simpl. rewrite IH, Hf.
  destruct (Py.rstrip_by sp s); [destruct (sp c) |]; reflexivity.
Qed.

(** A string that [rstrip] leaves alone stays so under a map that keeps
    the other characters from becoming white space. *)
Lemma rstrip_by_fixed_map (f : ascii -> ascii) (s : string) :
  (forall c, sp c = false -> sp (f c) = false) ->
  Py.rstrip_by sp s = s -> Py.rstrip_by sp (map_chars f s) = map_chars f s.
Proof.
  intros Hf. induction s as [| c s IH]; [reflexivity |].
  simpl. destruct (Py.rstrip_by sp s) as [| d r'] eqn:Hs.
  - destruct (sp c) eqn:Hc; [discriminate |]. intros [= <-]. simpl.
    rewrite (Hf c Hc). reflexivity.
  - intros [= Hs']. rewrite (IH Hs'). subst s. reflexivity.
Qed.

Lemma rstrip_by_idem (s : string) :
  Py.rstrip_by sp (Py.rstrip_by sp s) = Py.rstrip_by sp s.
Proof.
  destruct (rstrip_by_split sp s) as (r & _ & _ & Hend).
  apply rstrip_by_clean. exact Hend.
Qed.

(** Appending to a string that [rstrip] leaves alone another such
    string gives a third. *)
Lemma rstrip_by_fixed_app (p u : string) :
  Py.rstrip_by sp p = p -> Py.rstrip_by sp u = u ->
  Py.rstrip_by sp (p ++ u) = p ++ u.
Proof.
  intros Hp Hu. induction p as [| c p IH]; [exact Hu |].
  rewrite append_String. rewrite rstrip_by_String in Hp |- *.
  destruct (Py.rstrip_by sp p) as [| d r'] eqn:Hr.
  - destruct (sp c) eqn:Hc; [discriminate |]. injection Hp as <-.
    rewrite append_Empty, Hu. destruct u; reflexivity.
  - injection Hp as Hp. rewrite (IH Hp). subst p. reflexivity.
Qed.

End StripMaps.

Lemma all_chars_app (p : ascii -> bool) (a b : string) :
  all_chars p (a ++ b) = all_chars p a && all_chars p b.
Proof.
  induction a as [| c a IH]; [reflexivity |].
  rewrite append_String. simpl. rewrite IH. apply andb_assoc.
Qed.

Lemma map_chars_app (f : ascii -> ascii) (a b : string) :
  map_chars f (a ++ b) = map_chars f a ++ map_chars f b.
Proof.
  induction a as [| c a IH]; [reflexivity |].
  rewrite !append_String. simpl. rewrite IH. reflexivity.
Qed.

Lemma map_chars_fixed (f : ascii -> ascii) (p : ascii -> bool) (s : string) :
  (forall c, p c = true -> f c = c) -> all_chars p s = true -> map_chars f s = s.
Proof.
  intros Hf. induction s as [| c s IH]; [reflexivity |].
  simpl. intros H. apply andb_prop in H as [Hc Hs]. rewrite (Hf c Hc), (IH Hs).
  reflexivity.
Qed.

Ltac by_cases_on_char c :=
  destruct c as [[] [] [] [] [] [] [] []]; try reflexivity; try discriminate.

Lemma isspace_lower_char (c : ascii) : Py.isspace (Py.lower_char c) = Py.isspace c.
Proof. by_cases_on_char c. Qed.


Lemma lower_char_idem (c : ascii) : Py.lower_char (Py.lower_char c) = Py.lower_char c.
Proof. by_cases_on_char c. Qed.

Lemma key_of_char_key_char (c : ascii) : key_char (key_of_char c) = true.
Proof. by_cases_on_char c. Qed.

Lemma key_of_char_fixed (c : ascii) : key_char c = true -> key_of_char c = c.
Proof. by_cases_on_char c. Qed.

Lemma key_of_char_keeps_clean (c : ascii) :
  Py.isspace c = false -> Py.isspace (key_of_char c) = false.
Proof. by_cases_on_char c. Qed.

Lemma replace_lower_map (s : string) :
  Py.replace " " "_" (Py.lower s) = map_chars key_of_char s.
Proof. induction s as [| c s IH]; [reflexivity |]. simpl. rewrite IH. reflexivity. Qed.

Lemma canonical_key_map (t : string) :
  canonical_key t = "terms_abstract_tfidf__" ++ map_chars key_of_char (Py.strip t).
Proof. unfold canonical_key. rewrite replace_lower_map. reflexivity. Qed.

Lemma strip_lower (t : string) : Py.strip (Py.lower t) = Py.lower (Py.strip t).
Proof.
  unfold Py.strip. rewrite !lower_map_chars. unfold lowercased.
  rewrite lstrip_by_map, rstrip_by_map by apply isspace_lower_char. reflexivity.
Qed.

Lemma lower_idem (t : string) : Py.lower (Py.lower t) = Py.lower t.
Proof.
  induction t as [| c t IH]; [reflexivity |]. simpl. rewrite lower_char_idem, IH.
  reflexivity.
Qed.

Lemma canonical_key_lower (t : string) : canonical_key (Py.lower t) = canonical_key t.
Proof. unfold canonical_key. rewrite strip_lower, lower_idem. reflexivity. Qed.

(** X1: terms that differ only in case have the same canonical key, and
    the term view answers the same for them, on either side. *)
Theorem canonical_key_ignores_case (t1 t2 : string) :
  Py.lower t1 = Py.lower t2 ->
  canonical_key t1 = canonical_key t2
  /\ (forall other w,
        dissociate_terms t1 other w = dissociate_terms t2 other w
        /\ dissociate_terms other t1 w = dissociate_terms other t2 w).
Proof.
  intros H.
  assert (Hk : canonical_key t1 = canonical_key t2).
  { rewrite <- (canonical_key_lower t1), <- (canonical_key_lower t2), H. reflexivity. }
  split; [exact Hk |]. intros other w. unfold dissociate_terms. rewrite Hk. auto.
Qed.

Lemma canonical_key_ignores_case_witness :
  Py.lower "Amygdala" = Py.lower "AMYGDALA"
  /\ canonical_key "Amygdala" = canonical_key "AMYGDALA"
  /\ (forall other w,
        dissociate_terms "Amygdala" other w = dissociate_terms "AMYGDALA" other w
        /\ dissociate_terms other "Amygdala" w = dissociate_terms other "AMYGDALA" w).
Proof.
  split; [reflexivity |].
  apply (canonical_key_ignores_case "Amygdala" "AMYGDALA"). reflexivity.
Defined.

(** X2: white space around a term does not change its canonical key,
    nor what the term view answers. *)
Theorem canonical_key_ignores_padding (l t r : string) :
  whitespace l -> whitespace r ->
  canonical_key (l ++ t ++ r) = canonical_key t
  /\ (forall other w,
        dissociate_terms (l ++ t ++ r) other w = dissociate_terms t other w
        /\ dissociate_terms other (l ++ t ++ r) w = dissociate_terms other t w).
Proof.
  intros Hl Hr.
  assert (Hk : canonical_key (l ++ t ++ r) = canonical_key t).
  { unfold canonical_key, Py.strip. rewrite strip_by_padding by assumption.
    reflexivity. }
  split; [exact Hk |]. intros other w. unfold dissociate_terms. rewrite Hk. auto.
Qed.

Lemma canonical_key_ignores_padding_witness :
  whitespace "  " /\ whitespace " "
  /\ canonical_key ("  " ++ "Amygdala" ++ " ") = canonical_key "Amygdala"
  /\ (forall other w,
        dissociate_terms ("  " ++ "Amygdala" ++ " ") other w
        = dissociate_terms "Amygdala" other w
        /\ dissociate_terms other ("  " ++ "Amygdala" ++ " ") w
           = dissociate_terms other "Amygdala" w).
Proof.
  split; [reflexivity |]. split; [reflexivity |].
  apply (canonical_key_ignores_padding "  " "Amygdala" " "); reflexivity.
Defined.

(** X3: a canonical key holds no space and no character that
    [str.lower] would change: every character of it is a [key_char]. *)
Theorem canonical_key_chars (t : string) :
  all_chars key_char (canonical_key t) = true.
Proof.
  rewrite canonical_key_map, all_chars_app. apply andb_true_intro. split; [reflexivity |].
  induction (Py.strip t) as [| c s IH]; [reflexivity |].
  simpl. rewrite key_of_char_key_char. exact IH.
Qed.

Lemma map_chars_empty (f : ascii -> ascii) (s : string) :
  map_chars f s = EmptyString -> s = EmptyString.
Proof. destruct s; [reflexivity | discriminate]. Qed.

Lemma strip_empty (t : string) : Py.strip t = EmptyString <-> whitespace t.
Proof.
  unfold Py.strip, whitespace. split.
  - intros H.
    destruct (lstrip_by_split Py.isspace t) as (l & Hl & Hsp & Hhd).
    destruct (rstrip_by_split Py.isspace (Py.lstrip_by Py.isspace t)) as (r & Hr & Hrsp & _).
    rewrite H, append_Empty in Hr.
    destruct (Py.lstrip_by Py.isspace t) as [| c u] eqn:Hu.
    + rewrite Hl, all_chars_app, Hsp. reflexivity.
    + exfalso. specialize (Hhd c u eq_refl). subst r. simpl in Hrsp.
      rewrite Hhd in Hrsp. discriminate.
  - intros H. rewrite lstrip_by_all_ws by exact H. reflexivity.
Qed.

(** X4: the canonical key is the bare prefix exactly when the term is
    empty or all white space; the term view, called with such a term on
    either side, does not reject it: when the process serves it answers
    200 and echoes the bare prefix as the key. *)
Theorem canonical_key_blank (t : string) :
  (canonical_key t = "terms_abstract_tfidf__" <-> whitespace t)
  /\ (forall other w,
        whitespace t -> serving w ->
        (exists r w',
           dissociate_terms t other w = (Ok r, w')
           /\ status r = 200
           /\ field "a" r = Some (JStr "terms_abstract_tfidf__"))
        /\ (exists r w',
              dissociate_terms other t w = (Ok r, w')
              /\ status r = 200
              /\ field "b" r = Some (JStr "terms_abstract_tfidf__"))).
Proof.
  assert (Hkey : canonical_key t = "terms_abstract_tfidf__" <-> whitespace t).
  { rewrite canonical_key_map, <- strip_empty. split.
    - intros H. apply (map_chars_empty key_of_char).
      injection H as H. exact H.
    - intros ->. reflexivity. }
  split; [exact Hkey |].
  intros other w Ht Hw. apply Hkey in Ht. split.
  - destruct (dissociate_terms_run w t other Hw) as [w' Hrun].
    rewrite Ht in Hrun. eexists _, w'. split; [exact Hrun |]. split; reflexivity.
  - destruct (dissociate_terms_run w other t Hw) as [w' Hrun].
    rewrite Ht in Hrun. eexists _, w'. split; [exact Hrun |]. split; reflexivity.
Qed.

(** A term of two spaces on the small database. *)
Lemma canonical_key_blank_witness :
  whitespace "  " /\ serving example_world
  /\ (exists r w',
        dissociate_terms "  " "Amygdala" example_world = (Ok r, w')
        /\ status r = 200
        /\ field "a" r = Some (JStr "terms_abstract_tfidf__"))
  /\ (exists r w',
        dissociate_terms "Amygdala" "  " example_world = (Ok r, w')
        /\ status r = 200
        /\ field "b" r = Some (JStr "terms_abstract_tfidf__")).
Proof.
  split; [reflexivity |]. split; [example_serving |].
  apply (proj2 (canonical_key_blank "  ") "Amygdala" example_world);
    [reflexivity | example_serving].
Defined.

(** X5: a canonical key given back as a term is not recognised as one:
    it is left as it is and prefixed once more. *)
Theorem canonical_key_twice (t : string) :
  canonical_key (canonical_key t) = "terms_abstract_tfidf__" ++ canonical_key t.
Proof.
  rewrite (canonical_key_map (canonical_key t)). f_equal.
  assert (Hstrip : Py.strip (canonical_key t) = canonical_key t).
  { rewrite canonical_key_map. unfold Py.strip at 1.
    change (Py.lstrip_by Py.isspace
              ("terms_abstract_tfidf__" ++ map_chars key_of_char (Py.strip t)))
      with ("terms_abstract_tfidf__" ++ map_chars key_of_char (Py.strip t)).
    apply rstrip_by_fixed_app; [reflexivity |].
    apply rstrip_by_fixed_map; [apply key_of_char_keeps_clean |].
    unfold Py.strip. apply rstrip_by_idem. }
  rewrite Hstrip.
  apply (map_chars_fixed key_of_char key_char);
    [apply key_of_char_fixed | apply canonical_key_chars].
Qed.

(** ** Coordinate strings *)

(** X6: the two routes that take a coordinate segment accept the same
    strings and read the same three integers from them; they differ in
    how they reject: [/locations/<coords>/studies] with the generic 500
    page where [parse_coords] answers 400. *)
Theorem coordinate_routes_agree (w : world) (coords : string) :
  (exists x y z,
     serve (get_studies_by_coordinates coords) w
     = (Response 200 (Json (JList [JInt x; JInt y; JInt z])), w)
     /\ parse_coords coords w = (Ok (x, y, z), w))
  \/ (serve (get_studies_by_coordinates coords) w = (internal_server_error, w)
      /\ parse_coords coords w = (Raise (HTTPException 400 coords_message), w)).
Proof.
  rewrite parse_coords_run.
  destruct (parsed coords) as [[[x y] z] | e] eqn:Hp.
  - left. exists x, y, z. split; [| reflexivity].
    apply parsed_Ok in Hp. apply unpack3_map_int_Ok in Hp.
    unfold serve, get_studies_by_coordinates, bind, pure_result. rewrite Hp. reflexivity.
  - right. split; [| reflexivity].
    destruct (unpack3_map_int_raises (Py.split "_" coords)) as [[[[x y] z] H] | [why H]].
    + apply unpack3_map_int_Ok in H. apply parsed_Ok in H. congruence.
    + unfold serve, get_studies_by_coordinates, bind, pure_result. rewrite H. reflexivity.
Qed.

Lemma split_nonempty (sep : ascii) (s : string) : Py.split sep s <> [].
Proof.
  destruct s as [| c s]; simpl; [discriminate |].
  destruct (Ascii.eqb c sep); [discriminate |].
  destruct (Py.split sep s); discriminate.
Qed.

Lemma split_length (sep : ascii) (s : string) :
  length (Py.split sep s) = S (count_char sep s).
Proof.
  induction s as [| c s IH]; [reflexivity |].
  simpl. destruct (Ascii.eqb c sep); simpl; [rewrite IH; reflexivity |].
  destruct (Py.split sep s) as [| t ts] eqn:Hs; [destruct (split_nonempty _ _ Hs) |].
  exact IH.
Qed.

Lemma split_all_chars (q : ascii -> bool) (sep : ascii) (s : string) :
  q sep = true ->
  Forall (fun t => all_chars q t = true) (Py.split sep s) ->
  all_chars q s = true.
Proof.
  intros Hsep. induction s as [| c s IH]; [reflexivity |].
  simpl. destruct (Ascii.eqb c sep) eqn:Hc.
  - apply Ascii.eqb_eq in Hc as ->. intros H. apply Forall_cons in H as [_ H].
    rewrite Hsep. apply IH, H.
  - destruct (Py.split sep s) as [| t ts] eqn:Hs; [destruct (split_nonempty _ _ Hs) |].
    intros H. apply Forall_cons in H as [Ht Hts]. simpl in Ht.
    apply andb_prop in Ht as [Hqc Ht]. rewrite Hqc. apply IH.
    apply Forall_cons. split; assumption.
Qed.

Lemma all_chars_impl (p q : ascii -> bool) (s : string) :
  (forall c, p c = true -> q c = true) -> all_chars p s = true -> all_chars q s = true.
Proof.
  intros Hpq. induction s as [| c s IH]; [reflexivity |].
  simpl. intros H. apply andb_prop in H as [Hc Hs]. rewrite (Hpq c Hc). apply IH, Hs.
Qed.

Lemma int_digits_chars (s : string) (prev : Py.seen) (count acc v : Z) :
  Py.int_digits s prev count acc = Some v -> all_chars coordinate_char s = true.
Proof.
  revert prev count acc. induction s as [| c s IH]; [reflexivity |].
  intros prev count acc. simpl. unfold coordinate_char at 1.
  destruct (Py.isdigit c); [apply IH |].
  destruct (Ascii.eqb c "_"); [| discriminate].
  rewrite !orb_true_r. destruct prev; try discriminate. apply IH.
Qed.

Lemma int_chars (t : string) (v : Z) :
  Py.int t = Some v -> all_chars coordinate_char t = true.
Proof.
  unfold Py.int.
  destruct (lstrip_by_split Py.int_isspace t) as (l & Hl & Hlsp & _).
  destruct (rstrip_by_split Py.int_isspace (Py.lstrip_by Py.int_isspace t))
    as (r & Hr & Hrsp & _).
  assert (Hws : forall s, all_chars Py.int_isspace s = true ->
                          all_chars coordinate_char s = true).
  { intros s. apply all_chars_impl. intros c Hc. unfold coordinate_char.
    rewrite Hc, orb_true_r. reflexivity. }
  intros H. rewrite Hl, Hr, !all_chars_app, (Hws l Hlsp), (Hws r Hrsp), andb_true_r.
  destruct (Py.rstrip_by Py.int_isspace (Py.lstrip_by Py.int_isspace t)) as [| c core];
    [discriminate |].
  simpl. destruct (Ascii.eqb c "+") eqn:Hplus.
  - unfold coordinate_char at 1. rewrite Hplus, !orb_true_r.
    apply (int_digits_chars _ _ _ _ _ H).
  - destruct (Ascii.eqb c "-") eqn:Hminus.
    + unfold coordinate_char at 1. rewrite Hminus, !orb_true_r.
      destruct (Py.int_digits core Py.Nothing 0 0) as [v' |] eqn:Hd; [| discriminate].
      apply (int_digits_chars _ _ _ _ _ Hd).
    + apply (int_digits_chars _ _ _ _ _ H).
Qed.

(** X7: a coordinate string that is accepted holds exactly two
    underscores, and nothing but digits, signs, the white space [int]
    skips and those underscores; so digits cannot be grouped with
    underscores, and a decimal point or a letter makes the string
    malformed. *)
Theorem well_formed_shape (s : string) :
  well_formed s ->
  count_char "_" s = 2%nat /\ all_chars coordinate_char s = true.
Proof.
  intros (x & y & z & t1 & t2 & t3 & Hs & H1 & H2 & H3). split.
  - pose proof (split_length "_" s) as Hl. rewrite Hs in Hl. simpl in Hl. lia.
  - apply (split_all_chars coordinate_char "_"); [reflexivity |].
    rewrite Hs. repeat constructor; eapply int_chars; eassumption.
Qed.

Lemma well_formed_shape_witness :
  well_formed "-2_0_4"
  /\ count_char "_" "-2_0_4" = 2%nat /\ all_chars coordinate_char "-2_0_4" = true.
Proof.
  assert (H : well_formed "-2_0_4").
  { exists (-2), 0, 4. eexists _, _, _. repeat split; reflexivity. }
  split; [exact H |]. apply (well_formed_shape "-2_0_4"). exact H.
Defined.

(** X8: a minus sign before the first digit of a token negates what
    [int] reads from the rest. *)
Theorem int_minus_sign (c : ascii) (d : string) :
  Py.isdigit c = true ->
  Py.int (String "-" (String c d)) = Z.opp <$> Py.int (String c d).
Proof.
  intros Hc. destruct (isdigit_plain c Hc) as (Hsp & Hplus & Hminus).
  unfold Py.int. cbn [Py.lstrip_by].
  change (Py.int_isspace "-") with false. rewrite Hsp. cbv beta iota.
  rewrite (rstrip_by_String _ "-"), (rstrip_by_String _ c), Hsp.
  destruct (Py.rstrip_by Py.int_isspace d) as [| c' d'];
    cbv beta iota; rewrite Hplus, Hminus; reflexivity.
Qed.

Lemma int_minus_sign_witness :
  Py.isdigit "4" = true
  /\ Py.int (String "-" (String "4" "2")) = Z.opp <$> Py.int (String "4" "2").
Proof. split; [reflexivity |]. apply (int_minus_sign "4" "2"). reflexivity. Defined.

(** X9: the coordinate view depends on its two strings only through the
    integers read from them: strings that give the same triples give
    the same outcome, response and process alike. *)
Theorem dissociate_locations_by_triples (w : world)
    (coord1 coord1' coord2 coord2' : string) (x1 y1 z1 x2 y2 z2 : Z) :
  three_integers coord1 x1 y1 z1 -> three_integers coord1' x1 y1 z1 ->
  three_integers coord2 x2 y2 z2 -> three_integers coord2' x2 y2 z2 ->
  dissociate_locations coord1 coord2 w = dissociate_locations coord1' coord2' w.
Proof.
  intros H1 H1' H2 H2'. apply parsed_Ok in H1, H1', H2, H2'.
  unfold dissociate_locations.
  rewrite !(bind_run (parse_coords _)), !parse_coords_run, H1, H1'. cbv beta iota.
  rewrite !(bind_run (parse_coords _)), !parse_coords_run, H2, H2'. reflexivity.
Qed.

Lemma dissociate_locations_by_triples_witness :
  three_integers "10_20_30" 10 20 30 /\ three_integers "+10_ 20_030" 10 20 30
  /\ three_integers "-2_0_4" (-2) 0 4 /\ three_integers " -2_0_+4" (-2) 0 4
  /\ dissociate_locations "10_20_30" "-2_0_4" example_world
     = dissociate_locations "+10_ 20_030" " -2_0_+4" example_world.
Proof.
  assert (H1 : three_integers "10_20_30" 10 20 30) by example_three_integers.
  assert (H1' : three_integers "+10_ 20_030" 10 20 30) by example_three_integers.
  assert (H2 : three_integers "-2_0_4" (-2) 0 4) by example_three_integers.
  assert (H2' : three_integers " -2_0_+4" (-2) 0 4) by example_three_integers.
  repeat (split; [assumption |]).
  apply (dissociate_locations_by_triples example_world "10_20_30" "+10_ 20_030"
           "-2_0_4" " -2_0_+4" 10 20 30 (-2) 0 4); assumption.
Defined.

(** ** The connection provider, further *)

(** X10: once the provider has returned an engine, that engine is
    cached, and every later call returns it and changes nothing,
    whatever the environment variable has become since. *)
Theorem get_engine_cached (w w' : world) (e : engine) :
  get_engine w = (Ok e, w') ->
  _engine w' = Some e
  /\ (forall u, get_engine (setenv u w') = (Ok e, setenv u w')).
Proof.
  rewrite get_engine_run. intros H.
  assert (He : _engine w' = Some e).
  { destruct (_engine w) as [e0 |] eqn:E0.
    - injection H as <- <-. exact E0.
    - destruct (DB_URL w) as [[| c r] |]; try discriminate H.
      destruct (url_refusal (db w) (normalize_scheme (String c r)));
        [discriminate H |].
      injection H as <- <-. reflexivity. }
  split; [exact He |]. intros u. rewrite get_engine_run. simpl. rewrite He. reflexivity.
Qed.

Lemma get_engine_cached_witness :
  (exists e w', get_engine example_world = (Ok e, w')
                /\ _engine w' = Some e
                /\ (forall u, get_engine (setenv u w') = (Ok e, setenv u w'))).
Proof.
  exists (Engine "postgresql://reader@localhost/neurosynth" true),
    (set_engine (Engine "postgresql://reader@localhost/neurosynth" true)
       example_world).
  split; [reflexivity |].
  apply (get_engine_cached example_world). reflexivity.
Defined.

(** X11: the URL of an engine the provider creates never begins with the
    legacy scheme, and normalising it again changes nothing. *)
Theorem engine_url_never_legacy (w w' : world) (e : engine) :
  _engine w = None -> get_engine w = (Ok e, w') ->
  Py.startswith (url e) "postgres://" = false
  /\ normalize_scheme (url e) = url e.
Proof.
  intros Hn. rewrite get_engine_run, Hn.
  destruct (DB_URL w) as [[| c r] |]; try discriminate.
  destruct (url_refusal (db w) (normalize_scheme (String c r))); [discriminate |].
  intros [= <- _]. simpl url.
  assert (H : Py.startswith (normalize_scheme (String c r)) "postgres://" = false).
  { unfold normalize_scheme.
    destruct (Py.startswith (String c r) "postgres://") eqn:E; [reflexivity | exact E]. }
  split; [exact H |]. unfold normalize_scheme at 1. rewrite H. reflexivity.
Qed.

Lemma engine_url_never_legacy_witness :
  _engine example_world = None
  /\ exists e w', get_engine example_world = (Ok e, w')
                  /\ Py.startswith (url e) "postgres://" = false
                  /\ normalize_scheme (url e) = url e.
Proof.
  split; [reflexivity |].
  exists (Engine "postgresql://reader@localhost/neurosynth" true),
    (set_engine (Engine "postgresql://reader@localhost/neurosynth" true)
       example_world).
  split; [reflexivity |].
  apply (engine_url_never_legacy example_world _ _ eq_refl eq_refl).
Defined.

(** ** The dissociation views, further *)

Lemma dissociation_ext (a1 b1 a2 b2 : list Z) :
  NoDup a1 -> NoDup b1 -> NoDup a2 -> NoDup b2 ->
  (forall s, s ∈ a1 <-> s ∈ a2) -> (forall s, s ∈ b1 <-> s ∈ b2) ->
  study_ids_of_kind "a_not_b" (dissociation a1 b1)
  = study_ids_of_kind "a_not_b" (dissociation a2 b2)
  /\ study_ids_of_kind "b_not_a" (dissociation a1 b1)
     = study_ids_of_kind "b_not_a" (dissociation a2 b2).
Proof.
  intros Na1 Nb1 Na2 Nb2 Ha Hb.
  destruct (dissociation_a_not_b a1 b1) as [S1 P1], (dissociation_b_not_a a1 b1) as [S1' P1'].
  destruct (dissociation_a_not_b a2 b2) as [S2 P2], (dissociation_b_not_a a2 b2) as [S2' P2'].
  split; apply (StronglySorted_unique Z.le); try assumption.
  - rewrite P1, P2. apply NoDup_Permutation; try (apply NoDup_filter; assumption).
    intros s. rewrite !list_elem_of_filter, Ha, Hb. reflexivity.
  - rewrite P1', P2'. apply NoDup_Permutation; try (apply NoDup_filter; assumption).
    intros s. rewrite !list_elem_of_filter, Ha, Hb. reflexivity.
Qed.

Lemma dissociation_same (a : list Z) :
  study_ids_of_kind "a_not_b" (dissociation a a) = []
  /\ study_ids_of_kind "b_not_a" (dissociation a a) = [].
Proof.
  assert (H : filter (fun s => s ∉ a) a = []).
  { apply elem_of_nil_inv. intros s Hs. apply list_elem_of_filter in Hs as [H1 H2].
    exact (H1 H2). }
  destruct (dissociation_a_not_b a a) as [_ Pa], (dissociation_b_not_a a a) as [_ Pb].
  rewrite H in Pa, Pb. apply Permutation_nil_r in Pa, Pb. auto.
Qed.

(** X12: when the two terms have the same canonical key, or the two
    coordinate strings give the same triple, the view answers 200 with
    both lists empty and both counts zero. *)
Theorem dissociation_of_equal_inputs (w : world)
    (term_a term_b coord1 coord2 : string) (x y z : Z) :
  serving w ->
  canonical_key term_a = canonical_key term_b ->
  three_integers coord1 x y z -> three_integers coord2 x y z ->
  (exists r w', dissociate_terms term_a term_b w = (Ok r, w') /\ both_empty r)
  /\ (exists r w', dissociate_locations coord1 coord2 w = (Ok r, w') /\ both_empty r).
Proof.
  intros Hw Hk H1 H2. split.
  - destruct (dissociate_terms_run w term_a term_b Hw) as [w' Hrun].
    unfold sql_dissociate_terms in Hrun. rewrite Hk in Hrun.
    destruct (dissociation_same (term_set (db w) (canonical_key term_b))) as [Ea Eb].
    rewrite Ea, Eb in Hrun. eexists _, w'. split; [exact Hrun |].
    repeat split; reflexivity.
  - destruct (dissociate_locations_run w coord1 coord2 _ _ _ _ _ _ Hw H1 H2) as [w' Hrun].
    unfold sql_dissociate_locations in Hrun.
    destruct (dissociation_same (location_set (db w) x y z)) as [Ea Eb].
    rewrite Ea, Eb in Hrun. eexists _, w'. split; [exact Hrun |].
    repeat split; reflexivity.
Qed.

Lemma dissociation_of_equal_inputs_witness :
  serving example_world
  /\ canonical_key "Amygdala" = canonical_key " amygdala"
  /\ three_integers "10_20_30" 10 20 30 /\ three_integers "+10_20_30" 10 20 30
  /\ (exists r w',
        dissociate_terms "Amygdala" " amygdala" example_world = (Ok r, w')
        /\ both_empty r)
  /\ (exists r w',
        dissociate_locations "10_20_30" "+10_20_30" example_world = (Ok r, w')
        /\ both_empty r).
Proof.
  split; [example_serving |]. split; [reflexivity |].
  split; [example_three_integers |]. split; [example_three_integers |].
  apply (dissociation_of_equal_inputs example_world "Amygdala" " amygdala"
           "10_20_30" "+10_20_30" 10 20 30);
    [example_serving | reflexivity | example_three_integers | example_three_integers].
Defined.

Lemma term_set_ext (st1 st2 : store) (key : string) :
  (forall r, r ∈ annotations_terms st1 <-> r ∈ annotations_terms st2) ->
  forall s, s ∈ term_set st1 key <-> s ∈ term_set st2 key.
Proof.
  intros H s. rewrite !term_set_elem. unfold has_term.
  split; intros (r & Hr & Hrest); exists r; (split; [apply H, Hr | exact Hrest]).
Qed.

Lemma location_set_ext (st1 st2 : store) (x y z : Z) :
  (forall c, c ∈ coordinates st1 <-> c ∈ coordinates st2) ->
  (forall q, round st1 q = round st2 q) ->
  forall s, s ∈ location_set st1 x y z <-> s ∈ location_set st2 x y z.
Proof.
  intros H Hround s. rewrite !location_set_elem. unfold has_location.
  split; intros (c & Hc & Hs & Hx & Hy & Hz); exists c;
    (split; [apply H, Hc |]); rewrite ?Hround in *; auto.
Qed.

(** X13: the answers of the two dissociation views do not depend on the
    order of the rows of the tables nor on how often a row is repeated:
    two stores whose tables hold the same rows, and that round alike,
    get the same responses. *)
Theorem dissociation_ignores_row_order (w1 w2 : world)
    (term_a term_b coord1 coord2 : string) (x1 y1 z1 x2 y2 z2 : Z) :
  serving w1 -> serving w2 ->
  (forall r, r ∈ annotations_terms (db w1) <-> r ∈ annotations_terms (db w2)) ->
  (forall c, c ∈ coordinates (db w1) <-> c ∈ coordinates (db w2)) ->
  (forall q, round (db w1) q = round (db w2) q) ->
  three_integers coord1 x1 y1 z1 -> three_integers coord2 x2 y2 z2 ->
  (exists r w1' w2',
     dissociate_terms term_a term_b w1 = (Ok r, w1')
     /\ dissociate_terms term_a term_b w2 = (Ok r, w2'))
  /\ (exists r w1' w2',
        dissociate_locations coord1 coord2 w1 = (Ok r, w1')
        /\ dissociate_locations coord1 coord2 w2 = (Ok r, w2')).
Proof.
  intros Hw1 Hw2 Hann Hco Hround H1 H2. split.
  - destruct (dissociate_terms_run w1 term_a term_b Hw1) as [w1' Hrun1].
    destruct (dissociate_terms_run w2 term_a term_b Hw2) as [w2' Hrun2].
    unfold sql_dissociate_terms in Hrun1, Hrun2.
    destruct (dissociation_ext
                (term_set (db w1) (canonical_key term_a))
                (term_set (db w1) (canonical_key term_b))
                (term_set (db w2) (canonical_key term_a))
                (term_set (db w2) (canonical_key term_b)))
      as [Ea Eb]; auto using term_set_NoDup, term_set_ext.
    rewrite <- Ea, <- Eb in Hrun2. eexists _, w1', w2'. split; [exact Hrun1 | exact Hrun2].
  - destruct (dissociate_locations_run w1 coord1 coord2 _ _ _ _ _ _ Hw1 H1 H2) as [w1' Hrun1].
    destruct (dissociate_locations_run w2 coord1 coord2 _ _ _ _ _ _ Hw2 H1 H2) as [w2' Hrun2].
    unfold sql_dissociate_locations in Hrun1, Hrun2.
    destruct (dissociation_ext
                (location_set (db w1) x1 y1 z1) (location_set (db w1) x2 y2 z2)
                (location_set (db w2) x1 y1 z1) (location_set (db w2) x2 y2 z2))
      as [Ea Eb]; auto using location_set_NoDup, location_set_ext.
    rewrite <- Ea, <- Eb in Hrun2. eexists _, w1', w2'. split; [exact Hrun1 | exact Hrun2].
Qed.

Ltac same_rows := intros ?; simpl; rewrite !elem_of_cons, !elem_of_nil; tauto.

Lemma dissociation_ignores_row_order_witness :
  serving example_world /\ serving shuffled_world
  /\ (forall r, r ∈ annotations_terms (db example_world)
                <-> r ∈ annotations_terms (db shuffled_world))
  /\ (forall c, c ∈ coordinates (db example_world)
                <-> c ∈ coordinates (db shuffled_world))
  /\ (forall q, round (db example_world) q = round (db shuffled_world) q)
  /\ three_integers "10_20_30" 10 20 30 /\ three_integers "-2_0_4" (-2) 0 4
  /\ (exists r w1' w2',
        dissociate_terms "Amygdala" "Hippocampus" example_world = (Ok r, w1')
        /\ dissociate_terms "Amygdala" "Hippocampus" shuffled_world = (Ok r, w2'))
  /\ (exists r w1' w2',
        dissociate_locations "10_20_30" "-2_0_4" example_world = (Ok r, w1')
        /\ dissociate_locations "10_20_30" "-2_0_4" shuffled_world = (Ok r, w2')).
Proof.
  split; [example_serving |]. split; [example_serving |].
  split; [same_rows |]. split; [same_rows |]. split; [reflexivity |].
  split; [example_three_integers |]. split; [example_three_integers |].
  apply (dissociation_ignores_row_order example_world shuffled_world
           "Amygdala" "Hippocampus" "10_20_30" "-2_0_4" 10 20 30 (-2) 0 4);
    [example_serving | example_serving | same_rows | same_rows | reflexivity
    | example_three_integers | example_three_integers].
Defined.

(** ** Store errors *)

Lemma since_cons (e : event) (evs tr tr' : list event) :
  tr' = (evs ++ tr)%list -> e :: tr' = ((e :: evs) ++ tr)%list.
Proof. intros ->. reflexivity. Qed.

Ltac events_since :=
  repeat eapply since_cons;
  match goal with |- ?tr = _ => exact (eq_refl : tr = ([] ++ tr)%list) end.

Lemma begin_two_statements_outcome {A} (w : world) (eng : engine) (s : statement)
    (answer : store -> A) :
  exists res w',
    begin eng (let* _ := execute SetSearchPath (fun _ => tt) in execute s answer) w
    = (res, w')
    /\ trace w' = (transaction_events (db w) s ++ trace w)%list
    /\ _engine w' = _engine w
    /\ match transaction_error (db w) s with
       | Some msg => res = Raise (DBAPIError msg)
       | None => res = Ok (answer (db w))
       end.
Proof.
  unfold transaction_events, transaction_error, first_error.
  cbv [begin begin_with bind try_except tx_begin tx_commit tx_rollback execute ret raise].
  simpl. oracle_cases; eexists _, _; repeat split; reflexivity.
Qed.

(** X14: with an engine at hand, a dissociation view answers 200 when
    the checkout, [SET search_path], its statement and the commit all
    succeed, and the generic 500 page as soon as one of them fails; the
    statement is sent only after [SET search_path] went through, a
    failed statement is rolled back and never committed. *)
Theorem dissociation_store_errors (w : world)
    (term_a term_b coord1 coord2 : string) (x1 y1 z1 x2 y2 z2 : Z) :
  configured w ->
  three_integers coord1 x1 y1 z1 -> three_integers coord2 x2 y2 z2 ->
  (exists r w',
     serve (dissociate_terms term_a term_b) w = (r, w')
     /\ trace w'
        = (transaction_events (db w)
             (DissociateTerms (canonical_key term_a) (canonical_key term_b))
           ++ trace w)%list
     /\ match transaction_error (db w)
                (DissociateTerms (canonical_key term_a) (canonical_key term_b)) with
        | Some _ => r = internal_server_error
        | None => status r = 200
        end)
  /\ (exists r w',
        serve (dissociate_locations coord1 coord2) w = (r, w')
        /\ trace w'
           = (transaction_events (db w) (DissociateLocations x1 y1 z1 x2 y2 z2)
              ++ trace w)%list
        /\ match transaction_error (db w) (DissociateLocations x1 y1 z1 x2 y2 z2) with
           | Some _ => r = internal_server_error
           | None => status r = 200
           end).
Proof.
  intros Hc H1 H2. apply parsed_Ok in H1, H2.
  destruct (get_engine_configured w Hc) as (e & w1 & He & Hdb & Htr).
  split.
  - destruct (begin_two_statements_outcome w1 e
                (DissociateTerms (canonical_key term_a) (canonical_key term_b))
                (sql_dissociate_terms (canonical_key term_a) (canonical_key term_b)))
      as (res & w' & Hrun & Hevs & _ & Hres).
    rewrite Hdb, Htr in *. unfold serve, dissociate_terms.
    rewrite bind_run, He. cbv beta iota. rewrite bind_run, Hrun.
    destruct (transaction_error (db w) _); subst res; eexists _, _;
      (split; [reflexivity |]); split; auto.
  - destruct (begin_two_statements_outcome w1 e
                (DissociateLocations x1 y1 z1 x2 y2 z2)
                (sql_dissociate_locations x1 y1 z1 x2 y2 z2))
      as (res & w' & Hrun & Hevs & _ & Hres).
    rewrite Hdb, Htr in *. unfold serve, dissociate_locations.
    rewrite bind_run, parse_coords_run, H1. cbv beta iota.
    rewrite bind_run, parse_coords_run, H2. cbv beta iota.
    rewrite bind_run, He. cbv beta iota. rewrite bind_run, Hrun.
    destruct (transaction_error (db w) _); subst res; eexists _, _;
      (split; [reflexivity |]); split; auto.
Qed.

Lemma dissociation_store_errors_witness :
  configured flaky_world
  /\ three_integers "10_20_30" 10 20 30 /\ three_integers "-2_0_4" (-2) 0 4
  /\ (exists r w',
        serve (dissociate_terms "Amygdala" "Hippocampus") flaky_world = (r, w')
        /\ trace w'
           = (transaction_events (db flaky_world)
                (DissociateTerms (canonical_key "Amygdala") (canonical_key "Hippocampus"))
              ++ trace flaky_world)%list
        /\ match transaction_error (db flaky_world)
                   (DissociateTerms (canonical_key "Amygdala")
                      (canonical_key "Hippocampus")) with
           | Some _ => r = internal_server_error
           | None => status r = 200
           end)
  /\ (exists r w',
        serve (dissociate_locations "10_20_30" "-2_0_4") flaky_world = (r, w')
        /\ trace w'
           = (transaction_events (db flaky_world) (DissociateLocations 10 20 30 (-2) 0 4)
              ++ trace flaky_world)%list
        /\ match transaction_error (db flaky_world)
                   (DissociateLocations 10 20 30 (-2) 0 4) with
           | Some _ => r = internal_server_error
           | None => status r = 200
           end).
Proof.
  assert (Hc : configured flaky_world) by (right; eexists _, _; split; reflexivity).
  split; [exact Hc |].
  split; [example_three_integers |]. split; [example_three_integers |].
  apply (dissociation_store_errors flaky_world "Amygdala" "Hippocampus"
           "10_20_30" "-2_0_4" 10 20 30 (-2) 0 4);
    [exact Hc | example_three_integers | example_three_integers].
Defined.

(** What the failing store of [flaky_world] does to the term view. *)
Example flaky_terms :
  serve (dissociate_terms "Amygdala" "Hippocampus") flaky_world
  = (internal_server_error,
     World (DB_URL flaky_world)
       (Some (Engine "postgresql://reader@localhost/neurosynth" true))
       flaky_store
       [EvRollback;
        EvExecute (DissociateTerms "terms_abstract_tfidf__amygdala"
                     "terms_abstract_tfidf__hippocampus");
        EvExecute SetSearchPath; EvBegin]).
Proof. reflexivity. Qed.

(** ** The diagnostic view, further *)

Ltac unfold_test_db :=
  cbv [with_local try_except begin_with bind lift tx_begin tx_commit
       tx_rollback execute sample setitem get_local ret raise jsonify_status];
  simpl.

(** X15: with an engine at hand, the diagnostic view commits exactly
    when the checkout and its five unguarded statements succeed, rolls
    back exactly when the checkout succeeds and one of the five fails,
    sends no statement twice, and, once the five have succeeded, sends
    each of the three sample statements whether or not an earlier
    sample failed. *)
Theorem test_db_transaction (w : world) :
  configured w ->
  exists r w' evs,
    serve test_db w = (r, w')
    /\ trace w' = (evs ++ trace w)%list
    /\ (existsb is_commit evs = true
        <-> connect_error (db w) = None /\ unguarded_error (db w) = None)
    /\ (existsb is_rollback evs = true
        <-> connect_error (db w) = None /\ unguarded_error (db w) <> None)
    /\ (forall s, (times_executed s evs <= 1)%nat)
    /\ (connect_error (db w) = None -> unguarded_error (db w) = None ->
        times_executed SampleCoordinates evs = 1%nat
        /\ times_executed SampleMetadata evs = 1%nat
        /\ times_executed SampleAnnotationsTerms evs = 1%nat).
Proof.
  intros Hc. unfold unguarded_error, first_error.
  destruct (get_engine_configured w Hc) as (e & w1 & He & Hdb & Htr).
  destruct w1 as [u1 e1 st1 tr1]. simpl in Hdb, Htr. subst st1 tr1.
  unfold serve, test_db. rewrite bind_run, He. cbv beta iota. unfold_test_db.
  oracle_cases; eexists _, _, _;
    (split; [reflexivity |]); (split; [events_since |]);
    (split; [simpl; intuition congruence |]);
    (split; [simpl; intuition congruence |]);
    (split; [intros stmt; destruct stmt; vm_compute; lia |]);
    intros; repeat split; solve [reflexivity | discriminate].
Qed.

Lemma test_db_transaction_witness :
  configured flaky_world
  /\ exists r w' evs,
       serve test_db flaky_world = (r, w')
       /\ trace w' = (evs ++ trace flaky_world)%list
       /\ (existsb is_commit evs = true
           <-> connect_error (db flaky_world) = None
               /\ unguarded_error (db flaky_world) = None)
       /\ (existsb is_rollback evs = true
           <-> connect_error (db flaky_world) = None
               /\ unguarded_error (db flaky_world) <> None)
       /\ (forall s, (times_executed s evs <= 1)%nat)
       /\ (connect_error (db flaky_world) = None ->
           unguarded_error (db flaky_world) = None ->
           times_executed SampleCoordinates evs = 1%nat
           /\ times_executed SampleMetadata evs = 1%nat
           /\ times_executed SampleAnnotationsTerms evs = 1%nat).
Proof.
  assert (Hc : configured flaky_world) by (right; eexists _, _; split; reflexivity).
  split; [exact Hc |]. apply (test_db_transaction flaky_world). exact Hc.
Defined.

(** X16: with an engine at hand and no top-level error, the diagnostic
    view reports the version of the server, the number of rows of each
    of the three tables, never negative, and at most three rows in each
    sample. *)
Theorem test_db_reports (w : world) :
  configured w -> top_level_error (db w) = None ->
  exists r w',
    serve test_db w = (r, w')
    /\ field "version" r = Some (JStr (version (db w)))
    /\ field "coordinates_count" r
       = Some (JInt (Z.of_nat (length (coordinates (db w)))))
    /\ field "metadata_count" r = Some (JInt (Z.of_nat (length (metadata (db w)))))
    /\ field "annotations_terms_count" r
       = Some (JInt (Z.of_nat (length (annotations_terms (db w)))))
    /\ at_most_three "coordinates_sample" r
    /\ at_most_three "metadata_sample" r
    /\ at_most_three "annotations_terms_sample" r.
Proof.
  intros Hc. unfold top_level_error, first_error, at_most_three, list_field.
  destruct (get_engine_configured w Hc) as (e & w1 & He & Hdb & Htr).
  destruct w1 as [u1 e1 st1 tr1]. simpl in Hdb, Htr. subst st1 tr1.
  unfold serve, test_db. rewrite bind_run, He. cbv beta iota. unfold_test_db.
  oracle_cases; intros Htop; try discriminate Htop;
    eexists _, _; (split; [reflexivity |]);
    do 4 (split; [reflexivity |]);
    repeat split; eexists; (split; [reflexivity |]);
    rewrite ?length_fmap;
    unfold sql_sample_coordinates, sql_sample_metadata, sql_sample_annotations_terms;
    rewrite ?length_fmap, ?length_take; first [lia | simpl; lia].
Qed.

Lemma test_db_reports_witness :
  configured flaky_world /\ top_level_error (db flaky_world) = None
  /\ exists r w',
       serve test_db flaky_world = (r, w')
       /\ field "version" r = Some (JStr (version (db flaky_world)))
       /\ field "coordinates_count" r
          = Some (JInt (Z.of_nat (length (coordinates (db flaky_world)))))
       /\ field "metadata_count" r
          = Some (JInt (Z.of_nat (length (metadata (db flaky_world)))))
       /\ field "annotations_terms_count" r
          = Some (JInt (Z.of_nat (length (annotations_terms (db flaky_world)))))
       /\ at_most_three "coordinates_sample" r
       /\ at_most_three "metadata_sample" r
       /\ at_most_three "annotations_terms_sample" r.
Proof.
  assert (Hc : configured flaky_world) by (right; eexists _, _; split; reflexivity).
  split; [exact Hc |]. split; [reflexivity |].
  apply (test_db_reports flaky_world Hc). reflexivity.
Defined.

(** ** The module global *)

(** X17: no view replaces a cached engine: after the term view, the
    coordinate view, the diagnostic view or the coordinate echo, the
    engine that was cached before is the one cached still. *)
Theorem engine_written_once (w : world) (e : engine) :
  _engine w = Some e ->
  (forall term_a term_b, _engine (dissociate_terms term_a term_b w).2 = Some e)
  /\ (forall coord1 coord2, _engine (dissociate_locations coord1 coord2 w).2 = Some e)
  /\ _engine (test_db w).2 = Some e
  /\ (forall coords, _engine (get_studies_by_coordinates coords w).2 = Some e).
Proof.
  intros He.
  assert (Hg : get_engine w = (Ok e, w)) by (rewrite get_engine_run, He; reflexivity).
  split; [| split; [| split]].
  - intros term_a term_b. unfold dissociate_terms. rewrite bind_run, Hg. cbv beta iota.
    destruct (begin_two_statements_outcome w e
                (DissociateTerms (canonical_key term_a) (canonical_key term_b))
                (sql_dissociate_terms (canonical_key term_a) (canonical_key term_b)))
      as (res & w' & Hrun & _ & Heng & _).
    rewrite bind_run, Hrun. destruct res; simpl; congruence.
  - intros coord1 coord2. unfold dissociate_locations.
    rewrite bind_run, parse_coords_run.
    destruct (parsed coord1) as [[[x1 y1] z1] |]; [| exact He]. cbv beta iota.
    rewrite bind_run, parse_coords_run.
    destruct (parsed coord2) as [[[x2 y2] z2] |]; [| exact He]. cbv beta iota.
    rewrite bind_run, Hg. cbv beta iota.
    destruct (begin_two_statements_outcome w e
                (DissociateLocations x1 y1 z1 x2 y2 z2)
                (sql_dissociate_locations x1 y1 z1 x2 y2 z2))
      as (res & w' & Hrun & _ & Heng & _).
    rewrite bind_run, Hrun. destruct res; simpl; congruence.
  - unfold test_db. rewrite bind_run, Hg. cbv beta iota.
    unfold_test_db. oracle_cases; exact He.
  - intros coords. unfold get_studies_by_coordinates, bind, pure_result.
    destruct (unpack3_map_int (Py.split "_" coords)) as [[[x y] z] |]; exact He.
Qed.

Lemma engine_written_once_witness :
  _engine (set_engine (Engine "sqlite:///neurosynth.db" true) example_world)
  = Some (Engine "sqlite:///neurosynth.db" true)
  /\ _engine (test_db
                (set_engine (Engine "sqlite:///neurosynth.db" true)
                   example_world)).2
     = Some (Engine "sqlite:///neurosynth.db" true).
Proof.
  split; [reflexivity |].
  apply (engine_written_once
           (set_engine (Engine "sqlite:///neurosynth.db" true) example_world)
           (Engine "sqlite:///neurosynth.db" true) eq_refl).
Defined.

(** ** What a dissociation response echoes *)

(** X18: a dissociation response has the five fields [a], [b],
    [a_not_b], [b_not_a] and [counts] and no other; [a] and [b] echo
    what was looked up, the canonical keys or the parsed integers, not
    the strings of the request. *)
Theorem dissociation_echo (w : world)
    (term_a term_b coord1 coord2 : string) (x1 y1 z1 x2 y2 z2 : Z) :
  serving w ->
  three_integers coord1 x1 y1 z1 -> three_integers coord2 x2 y2 z2 ->
  (exists d w',
     dissociate_terms term_a term_b w = (Ok (jsonify (JDict d)), w')
     /\ dom d = list_to_set ["a"; "b"; "a_not_b"; "b_not_a"; "counts"]
     /\ d !! "a" = Some (JStr (canonical_key term_a))
     /\ d !! "b" = Some (JStr (canonical_key term_b)))
  /\ (exists d w',
        dissociate_locations coord1 coord2 w = (Ok (jsonify (JDict d)), w')
        /\ dom d = list_to_set ["a"; "b"; "a_not_b"; "b_not_a"; "counts"]
        /\ d !! "a" = Some (JDict (dict [("x", JInt x1); ("y", JInt y1); ("z", JInt z1)]))
        /\ d !! "b" = Some (JDict (dict [("x", JInt x2); ("y", JInt y2); ("z", JInt z2)]))).
Proof.
  intros Hw H1 H2. split.
  - destruct (dissociate_terms_run w term_a term_b Hw) as [w' Hrun].
    eexists _, w'. split; [exact Hrun |]. repeat split; reflexivity.
  - destruct (dissociate_locations_run w coord1 coord2 _ _ _ _ _ _ Hw H1 H2) as [w' Hrun].
    eexists _, w'. split; [exact Hrun |]. repeat split; reflexivity.
Qed.

Lemma dissociation_echo_witness :
  serving example_world
  /\ three_integers "+10_ 20_030" 10 20 30 /\ three_integers "-2_0_4" (-2) 0 4
  /\ (exists d w',
        dissociate_terms " Amygdala" "HIPPOCAMPUS" example_world
        = (Ok (jsonify (JDict d)), w')
        /\ dom d = list_to_set ["a"; "b"; "a_not_b"; "b_not_a"; "counts"]
        /\ d !! "a" = Some (JStr (canonical_key " Amygdala"))
        /\ d !! "b" = Some (JStr (canonical_key "HIPPOCAMPUS")))
  /\ (exists d w',
        dissociate_locations "+10_ 20_030" "-2_0_4" example_world
        = (Ok (jsonify (JDict d)), w')
        /\ dom d = list_to_set ["a"; "b"; "a_not_b"; "b_not_a"; "counts"]
        /\ d !! "a" = Some (JDict (dict [("x", JInt 10); ("y", JInt 20); ("z", JInt 30)]))
        /\ d !! "b" = Some (JDict (dict [("x", JInt (-2)); ("y", JInt 0); ("z", JInt 4)]))).
Proof.
  split; [example_serving |].
  split; [example_three_integers |]. split; [example_three_integers |].
  apply (dissociation_echo example_world " Amygdala" "HIPPOCAMPUS"
           "+10_ 20_030" "-2_0_4" 10 20 30 (-2) 0 4);
    [example_serving | example_three_integers | example_three_integers].
Defined.
